(** * xds-server: SDK management (lib/xdsserver/sdk.go) and the AGL
      catalog reconciler (scripts/sdks/agl/db-dump)

    Shallow embedding of the two programs and the properties of their
    specification.

    Conventions of the embedding.
    - Go [string] is [string] (a sequence of bytes); [len] is [String.length].
    - Go [int] is [Z]; the only arithmetic on it is comparison with [len].
    - Go [error] is [option string]: [None] is [nil], [Some m] an error whose
      [Error()] text is [m].
    - A Go run-time panic (failed type assertion, slice out of range) is the
      [None] of the option monad.
    - Logging has no effect on the data and is left out; the expressions a log
      call evaluates are kept where they can panic.
    - A JavaScript object of string fields is a [gmap string string]; reading
      an absent property gives [None], which is JavaScript's [undefined]. *)

From Stdlib Require Import ZArith Ascii String.
From stdpp Require Import base option strings gmap list pretty.

Local Open Scope Z_scope.

(** ** Go values *)

Definition error : Type := option string.

(** [len(s)] *)
Definition len (s : string) : Z := Z.of_nat (String.length s).

(** ** Package xsapiv1 *)

Module xsapiv1.

(** Modelled from the spec: the status constants of package xsapiv1, whose
    declaration is not among the sources.  They are the states of the
    install state machine; the two that db-dump writes ('Not Installed',
    'Installed') are spelled as there. *)
Definition SdkStatusNotInstalled : string := "Not Installed".
Definition SdkStatusInstalling : string := "Installing".
Definition SdkStatusUninstalling : string := "Uninstalling".
Definition SdkStatusInstalled : string := "Installed".

(** Modelled from the spec: the type xsapiv1.SDKFamilyConfig (data model,
    SDKFamilyConfig), whose declaration is not among the sources. *)
Record SDKFamilyConfig : Type := mkSDKFamilyConfig {
  FamilyName : string;
  RootDir : string;
  EnvSetupFile : string
}.

(** Modelled from the spec: the type xsapiv1.SDK (data model, SDK), whose
    declaration is not among the sources; a struct of strings, copied by
    value on assignment. *)
Record SDK : Type := mkSDK {
  ID : string;
  Name : string;
  Description : string;
  Profile : string;
  Version : string;
  Arch : string;
  Path : string;
  URL : string;
  Status : string;
  Date : string;
  Size : string;
  Md5sum : string;
  SetupFile : string;
  LastError : string;
  FamilyConf : SDKFamilyConfig
}.

Definition with_ID (v : string) (k : SDK) : SDK :=
  mkSDK v (Name k) (Description k) (Profile k) (Version k) (Arch k) (Path k)
        (URL k) (Status k) (Date k) (Size k) (Md5sum k) (SetupFile k)
        (LastError k) (FamilyConf k).

Definition with_Status (v : string) (k : SDK) : SDK :=
  mkSDK (ID k) (Name k) (Description k) (Profile k) (Version k) (Arch k)
        (Path k) (URL k) v (Date k) (Size k) (Md5sum k) (SetupFile k)
        (LastError k) (FamilyConf k).

Definition with_LastError (v : string) (k : SDK) : SDK :=
  mkSDK (ID k) (Name k) (Description k) (Profile k) (Version k) (Arch k)
        (Path k) (URL k) (Status k) (Date k) (Size k) (Md5sum k)
        (SetupFile k) v (FamilyConf k).

Definition with_FamilyConf (v : SDKFamilyConfig) (k : SDK) : SDK :=
  mkSDK (ID k) (Name k) (Description k) (Profile k) (Version k) (Arch k)
        (Path k) (URL k) (Status k) (Date k) (Size k) (Md5sum k)
        (SetupFile k) (LastError k) v.

(** Modelled from the spec: the type xsapiv1.SDKManagementMsg (external
    interfaces, progress event), whose declaration is not among the
    sources.  Fields a struct literal of sdk.go leaves out hold Go's zero
    value. *)
Record SDKManagementMsg : Type := mkSDKManagementMsg {
  CmdID : string;
  Timestamp : string;
  Sdk : SDK;
  Progress : Z;
  Exited : bool;
  Stdout : string;
  Stderr : string;
  Code : Z;
  Error : string
}.

End xsapiv1.

Import xsapiv1.

(** ** Package xdsserver, file sdk.go *)

Definition scriptAdd : string := "add".
Definition scriptGetConfig : string := "get-config".
Definition scriptList : string := "list".
Definition scriptRemove : string := "remove".
Definition scriptUpdate : string := "update".

Definition scriptsAll : list string :=
  [scriptAdd; scriptGetConfig; scriptList; scriptRemove; scriptUpdate].

(** [eows.ExecOverWS] as sdk.go fills it.  The two callbacks are closures over
    the receiver and over the locals [SizeBufStdout] and [SizeBufStderr] of
    [Install]; the record keeps the captured locals, and the closures' bodies
    are the functions [OutputCB] and [ExitCB] below.  [eCmdID] is the field
    [CmdID], a name the progress event has too. *)
Record ExecOverWS : Type := mkExecOverWS {
  Cmd : string;
  Args : list string;
  Sid : string;
  eCmdID : string;
  CmdExecTimeout : Z;
  UserData : gmap string string;
  SizeBufStdout : Z;
  SizeBufStderr : Z
}.

(** The part of [*Context] sdk.go reads besides the logger and the session
    registry (the registry is read afresh at every callback, see [Moment]). *)
Record Context : Type := mkContext {
  LogLevelSilly : bool
}.

Record CrossSDK : Type := mkCrossSDK {
  ctx : Context;
  sdk : SDK;
  scripts : gmap string string;
  installCmd : option ExecOverWS;
  removeCmd : option ExecOverWS;
  bufStdout : string;
  bufStderr : string
}.

Definition set_sdk (v : SDK) (s : CrossSDK) : CrossSDK :=
  mkCrossSDK (ctx s) v (scripts s) (installCmd s) (removeCmd s)
             (bufStdout s) (bufStderr s).

Definition set_scripts (v : gmap string string) (s : CrossSDK) : CrossSDK :=
  mkCrossSDK (ctx s) (sdk s) v (installCmd s) (removeCmd s)
             (bufStdout s) (bufStderr s).

Definition set_installCmd (v : option ExecOverWS) (s : CrossSDK) : CrossSDK :=
  mkCrossSDK (ctx s) (sdk s) (scripts s) v (removeCmd s)
             (bufStdout s) (bufStderr s).

Definition set_bufs (out err : string) (s : CrossSDK) : CrossSDK :=
  mkCrossSDK (ctx s) (sdk s) (scripts s) (installCmd s) (removeCmd s) out err.

(** What [NewCrossSDK] asks of the machine it runs on. *)
Record Host : Type := mkHost {
  (** [common.Exists] *)
  Exists : string -> bool;
  (** [exec.Command(f).CombinedOutput()] *)
  CombinedOutput : string -> string * error;
  (** [json.Unmarshal(stdout, &conf)]: the struct after the call, and the
      error *)
  Unmarshal : string -> SDKFamilyConfig -> SDKFamilyConfig * error
}.

Section Validator.

(** Library functions [NewCrossSDK] calls: [path.Join] on two elements, and
    package uuid of satori. *)
Variable path_Join : string -> string -> string.
Variable UUID : Type.
Variable uuid_FromStringOrNil : string -> UUID.
Variable uuid_NewV3 : UUID -> string -> UUID.
Variable uuid_String : UUID -> string.

(** The loop over [scriptsAll]: fills [s.scripts] and stops at the first
    script that is missing. *)
Fixpoint checkScripts (h : Host) (scriptDir famName : string)
    (scrs : list string) (m : gmap string string)
    : gmap string string * error :=
  match scrs with
  | [] => (m, None)
  | scr :: rest =>
      let m := <[scr := path_Join scriptDir scr]> m in
      if negb (Exists h (default "" (m !! scr))) then
        (m, Some ("Script named '" +:+ scr +:+ "' missing in SDK family '"
                  +:+ famName +:+ "'"))
      else checkScripts h scriptDir famName rest m
  end.

(** The identity: [uuid.NewV3(uuid.FromStringOrNil("sdks"), nm).String()]
    with [nm] the name, or profile_arch_version when the name is empty. *)
Definition sdkID (k : SDK) : string :=
  let nm := Name k in
  let nm := if decide (nm = "") then
              Profile k +:+ "_" +:+ Arch k +:+ "_" +:+ Version k
            else nm in
  uuid_String (uuid_NewV3 (uuid_FromStringOrNil "sdks") nm).

(** [NewCrossSDK].  The parameter [sdk] is a struct passed by value and
    [s.sdk] a copy of it taken when [s] is built: the two are distinct
    variables from then on, [sdk0] and [sdk s] here. *)
Definition NewCrossSDK (h : Host) (c : Context) (sdk0 : SDK)
    (scriptDir : string) : CrossSDK * error :=
  let s := mkCrossSDK c sdk0 ∅ None None "" "" in
  let getConfFile := path_Join scriptDir scriptGetConfig in
  if negb (Exists h getConfFile) then
    (s, Some ("'" +:+ scriptGetConfig +:+ "' script file not found in "
              +:+ scriptDir))
  else
  let '(stdout, err) := CombinedOutput h getConfFile in
  match err with
  | Some e =>
      (s, Some ("Cannot get sdk config using " +:+ getConfFile +:+ ": "
                +:+ e))
  | None =>
  let '(fc, err) := Unmarshal h stdout (FamilyConf (sdk s)) in
  let s := set_sdk (with_FamilyConf fc (sdk s)) s in
  match err with
  | Some e => (s, Some ("Cannot decode sdk config " +:+ e))
  | None =>
  let famName := FamilyName (FamilyConf (sdk s)) in
  if decide (RootDir (FamilyConf (sdk s)) = "") then
    (s, Some "SDK config not valid (rootDir not set)")
  else if decide (EnvSetupFile (FamilyConf (sdk s)) = "") then
    (s, Some "SDK config not valid (envSetupFile not set)")
  else
  let '(m, err) := checkScripts h scriptDir famName scriptsAll (scripts s) in
  let s := set_scripts m s in
  match err with
  | Some e => (s, Some e)
  | None =>
  (* Fixed default fields value: assignments to the parameter *)
  let sdk0 := with_LastError "" sdk0 in
  let sdk0 := if decide (Status sdk0 = "") then
                with_Status SdkStatusNotInstalled sdk0
              else sdk0 in
  let errMsg := "Invalid SDK definition " in
  if decide (Name sdk0 = "") then (s, Some (errMsg +:+ "(name not set)"))
  else if decide (Profile sdk0 = "") then
    (s, Some (errMsg +:+ "(profile not set)"))
  else if decide (Version sdk0 = "") then
    (s, Some (errMsg +:+ "(version not set)"))
  else if decide (Arch sdk0 = "") then
    (s, Some (errMsg +:+ "(arch not set)"))
  else
  let installedCheck : error :=
    if decide (Status sdk0 = SdkStatusInstalled) then
      if decide (SetupFile sdk0 = "") then
        Some (errMsg +:+ "(setupFile not set)")
      else if negb (Exists h (SetupFile sdk0)) then
        Some (errMsg +:+ "(setupFile not accessible)")
      else if decide (Path sdk0 = "") then
        Some (errMsg +:+ "(path not set)")
      else if negb (Exists h (Path sdk0)) then
        Some (errMsg +:+ "(path not accessible)")
      else None
    else None in
  match installedCheck with
  | Some e => (s, Some e)
  | None =>
  let s := set_sdk (with_ID (sdkID (sdk s)) (sdk s)) s in
  (s, None)
  end end end end.

End Validator.

(** ** Go standard library functions sdk.go calls *)

Module strconv.

Definition isDigit (c : ascii) : bool :=
  (48 <=? nat_of_ascii c)%nat && (nat_of_ascii c <=? 57)%nat.

Fixpoint digits (s : string) (acc : Z) : option Z :=
  match s with
  | EmptyString => Some acc
  | String c r =>
      if isDigit c then digits r (acc * 10 + (Z.of_nat (nat_of_ascii c) - 48))
      else None
  end.

(** The range of Go's [int] on a 64-bit platform. *)
Definition minInt : Z := - 2 ^ 63.
Definition maxInt : Z := 2 ^ 63 - 1.

(** [strconv.Atoi], as far as [err == nil] and the value then: an optional
    sign, at least one decimal digit, nothing else, and the value within
    [int]. *)
Definition Atoi (s : string) : option Z :=
  let '(neg, body) :=
    match s with
    | String "-"%char r => (true, r)
    | String "+"%char r => (false, r)
    | _ => (false, s)
    end in
  match body with
  | EmptyString => None
  | _ =>
      n ← digits body 0;
      let v := if neg : bool then - n else n in
      if (minInt <=? v) && (v <=? maxInt) then Some v else None
  end.

(** [strconv.Itoa] *)
Definition Itoa (i : Z) : string := pretty i.

End strconv.

(** [i++] on a Go [int]: two's complement wrap-around at 64 bits. *)
Definition incr_int (i : Z) : Z :=
  if i + 1 >? strconv.maxInt then strconv.minInt else i + 1.

(** ** Install, its callbacks, abort and remove *)

(** The world outside the process at the moment a callback runs: the session
    ids the registry [s.sessions] holds a socket for, and the clock. *)
Record Moment : Type := mkMoment {
  live : gset string;
  now : string
}.

(** [s.sessions.IOSocketGet(sid) != nil] *)
Definition IOSocketGet (mo : Moment) (sid : string) : bool :=
  bool_decide (sid ∈ live mo).

(** The receiver [s] of the callbacks, with the events handed to [Emit] so
    far, oldest first.  Every event is of type [xsapiv1.EVTSDKInstall]; the
    result of [Emit] is only logged. *)
Record World : Type := mkWorld {
  self : CrossSDK;
  emitted : list SDKManagementMsg
}.

Definition emit (m : SDKManagementMsg) (w : World) : World :=
  mkWorld (self w) (emitted w ++ [m]).

Definition update (f : CrossSDK -> CrossSDK) (w : World) : World :=
  mkWorld (f (self w)) (emitted w).

(** The closure assigned to [s.installCmd.OutputCB]. *)
Definition OutputCB (e : ExecOverWS) (stdout stderr : string)
    (mo : Moment) (w : World) : option World :=
  sdkID ← UserData e !! "SDKID";
  if negb (IOSocketGet mo (Sid e)) then Some w
  else if LogLevelSilly (ctx (self w))
          && ((len (Sid e) <? 4) || (len sdkID <? 16)) then None
  else
    let w := update (fun s => set_bufs (bufStdout s +:+ stdout)
                                       (bufStderr s +:+ stderr) s) w in
    if (len (bufStdout (self w)) >? SizeBufStdout e)
       || (len (bufStderr (self w)) >? SizeBufStderr e) then
      let w := emit (mkSDKManagementMsg (eCmdID e) (now mo) (sdk (self w))
                       0 false (bufStdout (self w)) (bufStderr (self w))
                       0 "") w in
      Some (update (set_bufs "" "") w)
    else Some w.

(** The closure assigned to [s.installCmd.ExitCB]. *)
Definition ExitCB (e : ExecOverWS) (code : Z) (exitError : error)
    (mo : Moment) (w : World) : option World :=
  sdkID ← UserData e !! "SDKID";
  if len sdkID <? 16 then None
  else if negb (IOSocketGet mo (Sid e)) then Some w
  else
    (* Emit event remaining data in bufStdout/err *)
    let w :=
      if (len (bufStderr (self w)) >? 0) || (len (bufStdout (self w)) >? 0)
      then
        let w := emit (mkSDKManagementMsg (eCmdID e) (now mo) (sdk (self w))
                         50 false (bufStdout (self w)) (bufStderr (self w))
                         0 "") w in
        update (set_bufs "" "") w
      else w in
    (* Update SDK status *)
    let w :=
      if (code =? 0) && bool_decide (exitError = None) then
        update (fun s => set_sdk (with_Status SdkStatusInstalled
                                    (with_LastError "" (sdk s))) s) w
      else
        let lastError :=
          "Installation failed (code " +:+ strconv.Itoa code +:+ ")" in
        let lastError :=
          match exitError with
          | Some m => ". Error: " +:+ m
          | None => lastError
          end in
        update (fun s => set_sdk (with_Status SdkStatusNotInstalled
                                    (with_LastError lastError (sdk s))) s) w in
    let emitErr := match exitError with Some m => m | None => "" end in
    let emitErr :=
      if bool_decide (emitErr = "")
         && negb (bool_decide (LastError (sdk (self w)) = ""))
      then LastError (sdk (self w)) else emitErr in
    let w := emit (mkSDKManagementMsg (eCmdID e) (now mo) (sdk (self w))
                     100 true "" "" code emitErr) w in
    (* Cleanup command for the next time *)
    Some (update (set_installCmd None) w).

(** The two thresholds, from the process environment [env]
    ([os.LookupEnv]). *)
Definition sizeBuf (env : gmap string string) (var : string) (dflt : Z) : Z :=
  match env !! var with
  | Some valS =>
      match strconv.Atoi valS with
      | Some valI => valI
      | None => dflt
      end
  | None => dflt
  end.

(** [Install].  [g] is the package variable [sdkCmdID]; [env] the process
    environment; [Start] the outcome of [eows.ExecOverWS.Start] on the
    command built; [sessID] is [sess.ID]. *)
Definition Install (env : gmap string string) (Start : ExecOverWS -> error)
    (file : string) (force : bool) (timeout : Z) (sessID : string)
    (g : Z) (s : CrossSDK) : Z * CrossSDK * error :=
  if decide (Status (sdk s) = SdkStatusInstalled) then
    (g, s, Some "already installed")
  else if decide (Status (sdk s) = SdkStatusInstalling) then
    (g, s, Some "installation in progress")
  else
    let cmdArgs : list string := [] in
    let cmdArgs :=
      if negb (bool_decide (file = "")) then cmdArgs ++ ["--file"; file]
      else cmdArgs ++ ["--url"; URL (sdk s)] in
    let cmdArgs := if force then cmdArgs ++ ["--force"] else cmdArgs in
    let g := incr_int g in
    let cmdID := "sdk-install-" +:+ strconv.Itoa g in
    let CmdExecTimeout := if timeout >? 0 then timeout else 30 * 60 in
    let s := set_bufs "" "" s in
    let SizeBufStdout := sizeBuf env "XDS_SDK_BUF_STDOUT" 10 in
    let SizeBufStderr := sizeBuf env "XDS_SDK_BUF_STDERR" 2000 in
    let data : gmap string string := <["SDKID" := ID (sdk s)]> ∅ in
    let cmd := mkExecOverWS (default "" (scripts s !! scriptAdd)) cmdArgs
                 sessID cmdID CmdExecTimeout data
                 SizeBufStdout SizeBufStderr in
    let s := set_installCmd (Some cmd) s in
    let s := set_sdk (with_LastError ""
                        (with_Status SdkStatusInstalling (sdk s))) s in
    let err := Start cmd in
    (g, s, err).

(** [AbortInstallRemove]; [Signal] is the outcome of
    [eows.ExecOverWS.Signal]. *)
Definition AbortInstallRemove (Signal : ExecOverWS -> string -> error)
    (timeout : Z) (s : CrossSDK) : CrossSDK * error :=
  match installCmd s with
  | None => (s, Some "no installation in progress for this sdk")
  | Some cmd =>
      let s := set_sdk (with_Status SdkStatusNotInstalled (sdk s)) s in
      (s, Signal cmd "SIGKILL")
  end.

(** [Remove] *)
Definition Remove (h : Host) (s : CrossSDK) : CrossSDK * error :=
  if negb (bool_decide (Status (sdk s) = SdkStatusInstalled)) then
    (s, Some "this sdk is not installed")
  else
    let s := set_sdk (with_Status SdkStatusUninstalling (sdk s)) s in
    let cmdline := default "" (scripts s !! scriptRemove) +:+ " "
                   +:+ Path (sdk s) in
    let '(stdout, err) := CombinedOutput h cmdline in
    match err with
    | Some e => (s, Some ("Error while uninstalling sdk: " +:+ e))
    | None => (s, None)
    end.

(** ** The reconciler: scripts/sdks/agl/db-dump *)

Module DbDump.

(** [s.split(sep)] for a separator of one character. *)
Fixpoint split (sep : ascii) (s : string) : list string :=
  match s with
  | EmptyString => [EmptyString]
  | String c r =>
      if decide (c = sep) then EmptyString :: split sep r
      else match split sep r with
           | w :: ws => String c w :: ws
           | [] => [String c EmptyString]
           end
  end.

(** [s.substring(a, b)], for [a <= b] as in every call of the script;
    indices past the end are clamped. *)
Definition substring (a b : nat) (s : string) : string :=
  String.substring a (b - a) s.

(** String concatenation with a value that may be [undefined]. *)
Definition str (v : option string) : string := default "undefined" v.

(** [v == ''] for a value that is a string or [undefined]. *)
Definition isEmpty (v : option string) : bool := bool_decide (v = Some "").

(** A property of an object literal: [undefined] leaves it unreadable. *)
Definition prop (k : string) (v : option string)
    (o : gmap string string) : gmap string string :=
  match v with
  | Some x => <[k := x]> o
  | None => o
  end.

(** What the first half of the callback (lines 66 to 95) finds for one line
    of the output of find. *)
Inductive Probe : Type :=
| Skip                       (* [return]: the line is ignored *)
| Abort                      (* [process.exit(-1)] *)
| Local (profile version arch : option string) (dir sdkDate : string).

(** The double quote character. *)
Definition dq : string := String (ascii_of_nat 34) EmptyString.

Definition findCmd : string :=
  "find " +:+ dq +:+ "${SDK_ROOT_DIR}" +:+ dq +:+ " -maxdepth 4 -name "
  +:+ dq +:+ "${SDK_ENV_SETUP_FILENAME}" +:+ dq.

Section Script.

(** Node's [path.dirname] and [path.join] (two arguments), and
    [child_process.execSync]: [None] when it throws, else the output. *)
Variable path_dirname : string -> string.
Variable path_join : string -> string -> string.
Variable execSync : string -> option string.

(** [-debug] on the command line. *)
Variable DEBUG : bool.

Definition sdkDateOf (d : string) : string :=
  if negb (bool_decide (d = "")) then
    (substring 0 4 d +:+ "-" +:+ substring 4 6 d +:+ "-"
     +:+ substring 6 8 d)
    +:+ (" " +:+ substring 8 10 d +:+ ":" +:+ substring 10 12 d)
  else "".

Definition probe (envFile : string) : Probe :=
  if bool_decide (envFile = "") then Skip
  else
    let profile := split "/" envFile !! 3%nat in
    let version := split "/" envFile !! 4%nat in
    let arch := split "/" envFile !! 5%nat in
    let dir := path_dirname envFile in
    if isEmpty profile || isEmpty version || isEmpty arch
       || bool_decide (dir = "") then Skip
    else
      let versionFile := path_join (path_dirname envFile) "version-*" in
      let cmdVer := "[ -f " +:+ versionFile +:+ " ] && grep Timestamp "
                    +:+ versionFile +:+ " |cut -d' ' -f2" in
      match execSync cmdVer with
      | None => if DEBUG then Abort else Skip
      | Some d => Local profile version arch dir (sdkDateOf d)
      end.

(** The test of line 100. *)
Definition matches (profile version arch : option string)
    (sdk : gmap string string) : bool :=
  bool_decide (profile = sdk !! "profile")
  && bool_decide (version = sdk !! "version")
  && bool_decide (arch = sdk !! "arch").

(** The assignments of lines 103 to 106. *)
Definition updateFound (dir sdkDate envFile : string)
    (sdk : gmap string string) : gmap string string :=
  <["setupFile" := envFile]>
    (<["data" := sdkDate]>
       (<["status" := "Installed"]> (<["path" := dir]> sdk))).

(** The object pushed at lines 112 to 125. *)
Definition synthesized (profile version arch : option string)
    (dir sdkDate envFile : string) : gmap string string :=
  <["setupFile" := envFile]>
    (<["md5sum" := ""]>
       (<["size" := ""]>
          (<["date" := sdkDate]>
             (<["status" := "Installed"]>
                (<["url" := ""]>
                   (<["path" := dir]>
                      (prop "arch" arch
                         (prop "version" version
                            (prop "profile" profile
                               (<["description" :=
                                    "AGL SDK " +:+ str arch
                                    +:+ " (version " +:+ str version
                                    +:+ ")"]>
                                  (<["name" :=
                                       str profile +:+ "-" +:+ str arch
                                       +:+ "-" +:+ str version]>
                                     ∅))))))))))).

(** The second half of the callback (lines 97 to 126): every entry with
    the key is updated in place, and an entry is pushed when there was
    none. *)
Definition merge (profile version arch : option string)
    (dir sdkDate envFile : string)
    (sdks : list (gmap string string)) : list (gmap string string) :=
  let found := existsb (matches profile version arch) sdks in
  let sdks :=
    (fun sdk =>
       if matches profile version arch sdk
       then updateFound dir sdkDate envFile sdk else sdk) <$> sdks in
  if negb found then
    sdks ++ [synthesized profile version arch dir sdkDate envFile]
  else sdks.

(** The loop over the lines; [None] is [process.exit(-1)]. *)
Fixpoint scan (lines : list string) (sdks : list (gmap string string))
    : option (list (gmap string string)) :=
  match lines with
  | [] => Some sdks
  | envFile :: rest =>
      match probe envFile with
      | Skip => scan rest sdks
      | Abort => None
      | Local profile version arch dir sdkDate =>
          scan rest (merge profile version arch dir sdkDate envFile sdks)
      end
  end.

(** The script from the parsed catalog [sdks] on (line 50): the array it
    prints, or [None] when it exits with -1 and prints nothing.  The
    entries of the catalog are objects whose properties are strings. *)
Definition dbDump (sdks : list (gmap string string))
    : option (list (gmap string string)) :=
  let sdks := (fun sdk => <["status" := "Not Installed"]> sdk) <$> sdks in
  data ← execSync findCmd;
  scan (split "010" data) sdks.

(** The logical key of an entry, as line 100 reads it. *)
Definition keyOf (sdk : gmap string string)
    : option string * option string * option string :=
  (sdk !! "profile", sdk !! "version", sdk !! "arch").

(** The keys of the local installs the scan takes up, in the order of the
    lines. *)
Definition localKeys (lines : list string)
    : list (option string * option string * option string) :=
  omap (fun envFile =>
          match probe envFile with
          | Local profile version arch _ _ => Some (profile, version, arch)
          | _ => None
          end) lines.

(** The name given to an entry made for a local install. *)
Definition synthName
    (k : option string * option string * option string) : string :=
  let '(profile, version, arch) := k in
  str profile +:+ "-" +:+ str arch +:+ "-" +:+ str version.

(** The properties the scan assigns to an entry of the catalog. *)
Definition localFields : list string :=
  ["path"; "status"; "data"; "setupFile"].

(** An entry made for a local install with key [k]: named after the key,
    installed, with a path. *)
Definition localOnly (k : option string * option string * option string)
    (e : gmap string string) : Prop :=
  keyOf e = k
  /\ e !! "name" = Some (synthName k)
  /\ e !! "status" = Some "Installed"
  /\ exists p, e !! "path" = Some p /\ p <> "".

(** The shape of the list once the local installs with the keys
    [locals] have been merged into [catalog]: the entries of the catalog
    in their order, changed in the local fields at most and still
    'Not Installed' when no local install has their key; after them
    entries made for local installs that the catalog does not have; and
    an entry for every local key. *)
Definition merged (catalog : list (gmap string string))
    (locals : list (option string * option string * option string))
    (out : list (gmap string string)) : Prop :=
  exists cat synth,
    out = cat ++ synth
    /\ Forall2 (fun c c' => forall f, f ∉ localFields -> c' !! f = c !! f)
               catalog cat
    /\ Forall (fun c' => keyOf c' ∉ locals ->
                         c' !! "status" = Some "Not Installed") cat
    /\ Forall (fun e => keyOf e ∈ locals
                        /\ (forall c, c ∈ catalog -> keyOf c <> keyOf e)
                        /\ localOnly (keyOf e) e) synth
    /\ (forall k, k ∈ locals -> exists e, e ∈ out /\ keyOf e = k).

End Script.

End DbDump.

(** ** How a job drives the callbacks *)

(** One piece of output of the job, and the world when it arrives. *)
Record Chunk : Type := mkChunk {
  c_stdout : string;
  c_stderr : string;
  c_at : Moment
}.

(** Modelled from the spec: the supervisor of package eows, which is not among
    the sources.  It invokes the output callback whenever the job produces
    output, and the exit callback exactly once when the job terminates. *)
Fixpoint runOutput (e : ExecOverWS) (chunks : list Chunk) (w : World)
    : option World :=
  match chunks with
  | [] => Some w
  | c :: rest =>
      w ← OutputCB e (c_stdout c) (c_stderr c) (c_at c) w;
      runOutput e rest w
  end.

Definition runJob (e : ExecOverWS) (chunks : list Chunk)
    (code : Z) (exitError : error) (mo : Moment) (w : World) : option World :=
  w ← runOutput e chunks w;
  ExitCB e code exitError mo w.

(** All the standard output, respectively all the standard error, of a job *)
Definition totalStdout (chunks : list Chunk) : string :=
  foldr (fun c acc => c_stdout c +:+ acc) "" chunks.

Definition totalStderr (chunks : list Chunk) : string :=
  foldr (fun c acc => c_stderr c +:+ acc) "" chunks.

(** The events the exit callback emits when the session has a socket: the
    rest of the buffers if there is any, then the terminal event. *)
Definition exitFlush (e : ExecOverWS) (mo : Moment) (s : CrossSDK)
    : list SDKManagementMsg :=
  if (len (bufStderr s) >? 0) || (len (bufStdout s) >? 0) then
    [mkSDKManagementMsg (eCmdID e) (now mo) (sdk s) 50 false
                        (bufStdout s) (bufStderr s) 0 ""]
  else [].

(** What is expected of a job with little output: the output callback emits
    nothing, and the exit callback emits the standard output in one event
    that is not terminal (nothing when there was no output), and then the
    terminal event. *)
Definition flushedAtExit (e : ExecOverWS) (chunks : list Chunk)
    (code : Z) (exitError : error) (mo : Moment) (w : World) : Prop :=
  exists w1 w2 terminal,
    runOutput e chunks w = Some w1
    /\ emitted w1 = emitted w
    /\ runJob e chunks code exitError mo w = Some w2
    /\ emitted w2
       = emitted w
         ++ (if decide (totalStdout chunks = "") then []
             else [mkSDKManagementMsg (eCmdID e) (now mo) (sdk (self w))
                     50 false (totalStdout chunks) "" 0 ""])
         ++ [terminal]
    /\ Exited terminal = true /\ Progress terminal = 100
    /\ Code terminal = code.

(** ** The accessors, and what the properties below speak of *)

(** [Get] returns a pointer to the record; what is read through it is the
    record of the moment. *)
Definition Get (s : CrossSDK) : SDK := sdk s.

(** [GetEnvCmd] *)
Definition GetEnvCmd (s : CrossSDK) : list string :=
  ["source"; SetupFile (sdk s)].

(** [s'] is [s] but for the status and the last error of the record, the job
    handle and the buffers. *)
Definition sameIdentity (s s' : CrossSDK) : Prop :=
  ctx s' = ctx s
  /\ scripts s' = scripts s
  /\ removeCmd s' = removeCmd s
  /\ with_Status (Status (sdk s)) (with_LastError (LastError (sdk s)) (sdk s'))
     = sdk s.

(** The standard output, respectively the standard error, that a list of
    events carries. *)
Definition stdoutOf (evs : list SDKManagementMsg) : string :=
  foldr (fun m acc => Stdout m +:+ acc) "" evs.

Definition stderrOf (evs : list SDKManagementMsg) : string :=
  foldr (fun m acc => Stderr m +:+ acc) "" evs.

(** [pieces.join(sep)] of JavaScript, for a separator of one character. *)
Fixpoint joinWith (sep : ascii) (pieces : list string) : string :=
  match pieces with
  | [] => EmptyString
  | [w] => w
  | w :: ws => w +:+ String sep (joinWith sep ws)
  end.

(** The character [c] occurs in [s]. *)
Fixpoint occurs (c : ascii) (s : string) : bool :=
  match s with
  | EmptyString => false
  | String x r => bool_decide (x = c) || occurs c r
  end.

(** ** Sample data for the examples *)

Module Sample.

Definition family : SDKFamilyConfig :=
  mkSDKFamilyConfig "agl" "/xdt/sdk" "environment-setup*".

(** A catalog record as the list script hands it over: not installed, no
    status yet, and an error text left from before. *)
Definition rawSDK : SDK :=
  mkSDK "" "agl-aarch64-7.0.0" "AGL SDK aarch64 (version 7.0.0)"
        "agl" "7.0.0" "aarch64" "" "http://example.org/sdk.sh" ""
        "" "" "" "" "stale error" (mkSDKFamilyConfig "" "" "").

(** A machine where every file exists and every script succeeds. *)
Definition host : Host :=
  mkHost (fun _ => true) (fun _ => ("{}", None))
         (fun _ _ => (family, None)).

(** A machine whose scripts fail. *)
Definition brokenHost : Host :=
  mkHost (fun _ => true) (fun _ => ("", Some "exit status 1"))
         (fun _ _ => (family, None)).

(** Stand-ins for [path.Join] and package uuid. *)
Definition join (a b : string) : string := a +:+ "/" +:+ b.
Definition fromStringOrNil (_ : string) : string :=
  "00000000-0000-0000-0000-000000000000".
Definition newV3 (ns nm : string) : string := ns +:+ ":" +:+ nm.

Definition sdkId : string := "5f3b0c1e-8a52-3d55-9a7e-2b1d7c0e4f11".

(** A managed SDK, not installed. *)
Definition notInstalled : CrossSDK :=
  mkCrossSDK (mkContext false)
    (mkSDK sdkId "agl-aarch64-7.0.0" "AGL SDK aarch64 (version 7.0.0)"
           "agl" "7.0.0" "aarch64" "" "http://example.org/sdk.sh"
           SdkStatusNotInstalled "" "" "" "" "" family)
    (<["add" := "/scripts/agl/add"]>
       (<["remove" := "/scripts/agl/remove"]> ∅))
    None None "" "".

(** The same SDK, installed. *)
Definition installed : CrossSDK :=
  set_sdk
    (mkSDK sdkId "agl-aarch64-7.0.0" "AGL SDK aarch64 (version 7.0.0)"
           "agl" "7.0.0" "aarch64" "/xdt/sdk/agl/7.0.0/aarch64"
           "http://example.org/sdk.sh" SdkStatusInstalled "" "" ""
           "/xdt/sdk/agl/7.0.0/aarch64/environment-setup-aarch64" ""
           family)
    notInstalled.

(** The command [Install] builds for [notInstalled] in session [sid-1],
    and the SDK while that command runs. *)
Definition cmd : ExecOverWS :=
  mkExecOverWS "/scripts/agl/add" ["--url"; "http://example.org/sdk.sh"]
               "sid-1" "sdk-install-1" 1800
               (<["SDKID" := sdkId]> ∅) 10 2000.

Definition installing : CrossSDK :=
  set_installCmd (Some cmd)
    (set_sdk (with_Status SdkStatusInstalling (sdk notInstalled))
             notInstalled).

Definition connected : Moment := mkMoment {["sid-1"]} "t1".
Definition disconnected : Moment := mkMoment ∅ "t2".

Definition startOK (_ : ExecOverWS) : error := None.
Definition startFails (_ : ExecOverWS) : error :=
  Some "fork/exec /scripts/agl/add: permission denied".
Definition signal (_ : ExecOverWS) (_ : string) : error := None.

(** The command with a negative threshold for standard error, as
    XDS_SDK_BUF_STDERR=-1 gives. *)
Definition cmdNegative : ExecOverWS :=
  mkExecOverWS "/scripts/agl/add" ["--url"; "http://example.org/sdk.sh"]
               "sid-1" "sdk-install-1" 1800
               (<["SDKID" := sdkId]> ∅) 10 (-1).

(** The world when the job starts, and a job that prints five bytes. *)
Definition start : World := mkWorld installing [].
Definition hello : list Chunk := [mkChunk "hello" "" connected].

Definition environment : gmap string string :=
  <["XDS_SDK_BUF_STDOUT" := "64"]> (<["XDS_SDK_BUF_STDERR" := "lots"]> ∅).

(** A machine for the reconciler, with one SDK installed under /xdt/sdk;
    [dirname] and [join] are Node's on the paths met here. *)
Definition nl : string := String "010" EmptyString.

Fixpoint hasSlash (p : string) : bool :=
  match p with
  | EmptyString => false
  | String c r => bool_decide (c = "/"%char) || hasSlash r
  end.

Fixpoint dirname (p : string) : string :=
  match p with
  | EmptyString => EmptyString
  | String c r => if hasSlash r then String c (dirname r) else EmptyString
  end.

Definition envFile : string :=
  "/xdt/sdk/agl/7.0.0/aarch64/environment-setup-aarch64-agl-linux".

Definition execSync (cmd : string) : option string :=
  if decide (cmd = DbDump.findCmd) then Some (envFile +:+ nl)
  else if decide (cmd = "[ -f /xdt/sdk/agl/7.0.0/aarch64/version-* ] && grep Timestamp /xdt/sdk/agl/7.0.0/aarch64/version-* |cut -d' ' -f2")
  then Some ("202401151230" +:+ nl)
  else None.

(** A catalog with the installed SDK, and one with another version only. *)
Definition catalogEntry (version : string) : gmap string string :=
  <["name" := "agl-aarch64-" +:+ version]>
    (<["profile" := "agl"]>
       (<["version" := version]> (<["arch" := "aarch64"]> ∅))).

Definition catalogWith : list (gmap string string) :=
  [catalogEntry "7.0.0"].
Definition catalogWithout : list (gmap string string) :=
  [catalogEntry "6.0.0"].

(** What the script prints for [catalogWithout]. *)
Definition mergedWithout : list (gmap string string) :=
  [ <["status" := "Not Installed"]> (catalogEntry "6.0.0");
    DbDump.synthesized (Some "agl") (Some "7.0.0") (Some "aarch64")
      "/xdt/sdk/agl/7.0.0/aarch64" "2024-01-15 12:30" envFile ].

(** The raw record validated on [host], and a record with the same name
    but another description and URL validated on a second machine whose
    family has another name. *)
Definition validate (h : Host) (k : SDK) (scriptDir : string)
    : CrossSDK * error :=
  NewCrossSDK join string fromStringOrNil newV3 id h (mkContext false)
              k scriptDir.

Definition managed : CrossSDK := (validate host rawSDK "/scripts/agl").1.

Definition otherSDK : SDK :=
  mkSDK "" "agl-aarch64-7.0.0" "another description"
        "agl" "7.0.0" "aarch64" "" "http://mirror.example.org/sdk.sh"
        SdkStatusNotInstalled "" "" "" "" "" (mkSDKFamilyConfig "" "" "").

Definition otherHost : Host :=
  mkHost (fun _ => true) (fun _ => ("{}", None))
         (fun _ _ => (mkSDKFamilyConfig "agl2" "/opt/sdk" "env*", None)).

Definition otherManaged : CrossSDK :=
  (validate otherHost otherSDK "/opt/scripts").1.

End Sample.

(** * Properties *)

(** ** The validator *)

Section ValidatorProperties.

Variable path_Join : string -> string -> string.
Variable UUID : Type.
Variable uuid_FromStringOrNil : string -> UUID.
Variable uuid_NewV3 : UUID -> string -> UUID.
Variable uuid_String : UUID -> string.

Abbreviation sdkID' := (sdkID UUID uuid_FromStringOrNil uuid_NewV3 uuid_String).
Abbreviation NewCrossSDK' :=
  (NewCrossSDK path_Join UUID uuid_FromStringOrNil uuid_NewV3 uuid_String).

(** An accepted record is stored as it came, but for the family
    configuration read from get-config and the identity; and it has a
    name. *)
Lemma NewCrossSDK_accepted h c sdk0 scriptDir s :
  NewCrossSDK' h c sdk0 scriptDir = (s, None) ->
  Name sdk0 <> ""
  /\ exists fc,
       sdk s = with_ID (sdkID' (with_FamilyConf fc sdk0))
                       (with_FamilyConf fc sdk0).
Proof.
  unfold NewCrossSDK. intros H.
  repeat (case_match; try discriminate); simplify_eq. simpl in *.
  all: split; [assumption | eexists; reflexivity].
Qed.

(** C4, as the code has it: the defaults are assigned to the parameter, a
    copy, after the record to store was taken from it; the stored record of
    an accepted SDK keeps the last error and the status of the raw record,
    so an unset status stays unset and a stale error stays. *)
Theorem NewCrossSDK_stores_raw_status_and_error h c sdk0 scriptDir s :
  NewCrossSDK path_Join UUID uuid_FromStringOrNil uuid_NewV3 uuid_String
              h c sdk0 scriptDir = (s, None) ->
  LastError (sdk s) = LastError sdk0 /\ Status (sdk s) = Status sdk0.
Proof.
  intros H. apply NewCrossSDK_accepted in H as [_ [fc ->]]. done.
Qed.

(** C5: the identity is a function of the name alone, or of the triple
    profile, arch, version when the name is empty; so it is the same for
    two records that agree there, whatever machine, context or script
    directory they are validated with. *)
Theorem sdk_identity_deterministic :
  (forall k1 k2 : SDK,
      Name k1 = Name k2 ->
      (Name k1 = "" ->
       Profile k1 = Profile k2 /\ Arch k1 = Arch k2
       /\ Version k1 = Version k2) ->
      sdkID UUID uuid_FromStringOrNil uuid_NewV3 uuid_String k1
      = sdkID UUID uuid_FromStringOrNil uuid_NewV3 uuid_String k2)
  /\ (forall h1 h2 c1 c2 d1 d2 (k1 k2 : SDK) s1 s2,
        NewCrossSDK path_Join UUID uuid_FromStringOrNil uuid_NewV3
                    uuid_String h1 c1 k1 d1 = (s1, None) ->
        NewCrossSDK path_Join UUID uuid_FromStringOrNil uuid_NewV3
                    uuid_String h2 c2 k2 d2 = (s2, None) ->
        Name k1 = Name k2 ->
        ID (sdk s1) = ID (sdk s2)).
Proof.
  split.
  - intros k1 k2 Hn Ht. unfold sdkID. rewrite <- Hn.
    destruct (decide (Name k1 = "")) as [E|E]; [|done].
    destruct (Ht E) as (-> & -> & ->). done.
  - intros h1 h2 c1 c2 d1 d2 k1 k2 s1 s2 H1 H2 Hn.
    apply NewCrossSDK_accepted in H1 as [N1 [f1 ->]].
    apply NewCrossSDK_accepted in H2 as [N2 [f2 ->]].
    simpl. unfold sdkID. simpl. rewrite <- Hn.
    destruct (decide (Name k1 = "")); done.
Qed.

End ValidatorProperties.

Lemma NewCrossSDK_stores_raw_witness :
  Sample.validate Sample.host Sample.rawSDK "/scripts/agl"
  = (Sample.managed, None)
  /\ LastError (sdk Sample.managed) = LastError Sample.rawSDK
  /\ Status (sdk Sample.managed) = Status Sample.rawSDK.
Proof.
  assert (H : Sample.validate Sample.host Sample.rawSDK "/scripts/agl"
              = (Sample.managed, None)) by (vm_compute; reflexivity).
  split; [exact H|].
  exact (NewCrossSDK_stores_raw_status_and_error
           Sample.join string Sample.fromStringOrNil Sample.newV3 id
           Sample.host (mkContext false) Sample.rawSDK "/scripts/agl"
           Sample.managed H).
Defined.

(** The raw record has no status and a stale error; it is accepted, and the
    managed record has no status and the stale error. *)
Example NewCrossSDK_stores_raw_run :
  (Sample.validate Sample.host Sample.rawSDK "/scripts/agl").2 = None
  /\ LastError (sdk Sample.managed) = "stale error"
  /\ Status (sdk Sample.managed) = ""
  /\ Status (sdk Sample.managed) <> SdkStatusNotInstalled.
Proof. vm_compute. done. Qed.

Lemma sdk_identity_witness :
  (Name Sample.rawSDK = Name Sample.otherSDK
   /\ sdkID string Sample.fromStringOrNil Sample.newV3 id Sample.rawSDK
      = sdkID string Sample.fromStringOrNil Sample.newV3 id Sample.otherSDK)
  /\ (Sample.validate Sample.host Sample.rawSDK "/scripts/agl"
      = (Sample.managed, None)
      /\ Sample.validate Sample.otherHost Sample.otherSDK "/opt/scripts"
         = (Sample.otherManaged, None)
      /\ ID (sdk Sample.managed) = ID (sdk Sample.otherManaged)).
Proof.
  assert (H1 : Sample.validate Sample.host Sample.rawSDK "/scripts/agl"
               = (Sample.managed, None)) by (vm_compute; reflexivity).
  assert (H2 : Sample.validate Sample.otherHost Sample.otherSDK "/opt/scripts"
               = (Sample.otherManaged, None)) by (vm_compute; reflexivity).
  pose proof (sdk_identity_deterministic
                Sample.join string Sample.fromStringOrNil Sample.newV3 id)
    as [Ha Hb].
  split; [split; [reflexivity|]|].
  - apply Ha; [reflexivity|]. intros H. discriminate H.
  - split; [exact H1|]. split; [exact H2|].
    exact (Hb _ _ _ _ _ _ _ _ _ _ H1 H2 eq_refl).
Defined.

(** ** Strings *)

Lemma append_cons c (a b : string) : String c a +:+ b = String c (a +:+ b).
Proof. reflexivity. Qed.

Lemma append_empty_r (a : string) : a +:+ "" = a.
Proof. induction a as [|c a IH]; [done|]. by rewrite append_cons, IH. Qed.

Lemma append_assoc (a b c : string) : (a +:+ b) +:+ c = a +:+ (b +:+ c).
Proof.
  induction a as [|x a IH]; [done|]. by rewrite !append_cons, IH.
Qed.

Lemma append_eq_empty (a b : string) : a +:+ b = "" -> a = "" /\ b = "".
Proof. destruct a; [done|]. rewrite append_cons. discriminate. Qed.

Lemma len_append (a b : string) : len (a +:+ b) = len a + len b.
Proof.
  unfold len. induction a as [|c a IH].
  - change ("" +:+ b) with b. simpl. lia.
  - rewrite append_cons. simpl String.length. lia.
Qed.

Lemma len_nonneg (a : string) : 0 <= len a.
Proof. unfold len. lia. Qed.

Lemma len_zero (a : string) : len a = 0 <-> a = "".
Proof. unfold len. destruct a; simpl; split; (done || lia). Qed.

(** ** Install, abort and remove *)

(** C8: a call that violates a precondition is refused at once, and the
    record, the job handle, the buffers and the command counter are what they
    were: Install on an installed SDK ("already installed"), Install during an
    installation ("installation in progress"), AbortInstallRemove without a
    job handle ("no installation in progress for this sdk"). *)
Theorem precondition_violation_changes_nothing
    env Start file force timeout sessID g Signal (s : CrossSDK) :
  (Status (sdk s) = SdkStatusInstalled ->
   Install env Start file force timeout sessID g s
   = (g, s, Some "already installed"))
  /\ (Status (sdk s) = SdkStatusInstalling ->
      Install env Start file force timeout sessID g s
      = (g, s, Some "installation in progress"))
  /\ (installCmd s = None ->
      AbortInstallRemove Signal timeout s
      = (s, Some "no installation in progress for this sdk")).
Proof.
  repeat split.
  - intros H. unfold Install. by rewrite decide_True.
  - intros H. unfold Install.
    rewrite decide_False by (rewrite H; discriminate).
    by rewrite decide_True.
  - intros H. unfold AbortInstallRemove. by rewrite H.
Qed.

(** What [Install] does once the preconditions hold: the command it builds is
    kept as the job handle, the status is Installing, the last error and the
    buffers are empty, and the result is that of [Start]. *)
Lemma Install_accepted env Start file force timeout sessID g (s : CrossSDK) :
  Status (sdk s) <> SdkStatusInstalled ->
  Status (sdk s) <> SdkStatusInstalling ->
  exists cmd s',
    Install env Start file force timeout sessID g s
    = (incr_int g, s', Start cmd)
    /\ installCmd s' = Some cmd
    /\ sdk s' = with_LastError "" (with_Status SdkStatusInstalling (sdk s))
    /\ bufStdout s' = "" /\ bufStderr s' = ""
    /\ SizeBufStdout cmd = sizeBuf env "XDS_SDK_BUF_STDOUT" 10
    /\ SizeBufStderr cmd = sizeBuf env "XDS_SDK_BUF_STDERR" 2000
    /\ Sid cmd = sessID
    /\ UserData cmd !! "SDKID" = Some (ID (sdk s)).
Proof.
  intros H1 H2. unfold Install.
  rewrite !decide_False by done.
  eexists _, _. split; [reflexivity|]. simpl.
  repeat split; try reflexivity.
Qed.

(** C3, as the code has it: after the preconditions Install sets the status
    to Installing and clears the last error, and returns what starting the
    job returned; nothing follows the start, so when the job cannot start the
    error is returned and the status is still Installing, the job handle
    still held. *)
Theorem Install_start_failure_keeps_Installing
    env Start file force timeout sessID g (s : CrossSDK) :
  Status (sdk s) <> SdkStatusInstalled ->
  Status (sdk s) <> SdkStatusInstalling ->
  exists cmd s',
    Install env Start file force timeout sessID g s
    = (incr_int g, s', Start cmd)
    /\ installCmd s' = Some cmd
    /\ Status (sdk s') = SdkStatusInstalling
    /\ Status (sdk s') <> SdkStatusNotInstalled
    /\ LastError (sdk s') = "".
Proof.
  intros H1 H2.
  destruct (Install_accepted env Start file force timeout sessID g s H1 H2)
    as (cmd & s' & E & Hc & Hs & _).
  exists cmd, s'. rewrite Hs. simpl. repeat split; try done.
Qed.

(** C10: the thresholds the callbacks of Install compare with are the values
    of XDS_SDK_BUF_STDOUT and XDS_SDK_BUF_STDERR when set and accepted by
    Atoi, and 10 and 2000 when unset or refused; the environment has no part
    in the result of Install, which is that of starting the job. *)
Theorem Install_thresholds_from_environment
    env Start file force timeout sessID g (s : CrossSDK) :
  Status (sdk s) <> SdkStatusInstalled ->
  Status (sdk s) <> SdkStatusInstalling ->
  exists cmd s',
    Install env Start file force timeout sessID g s
    = (incr_int g, s', Start cmd)
    /\ installCmd s' = Some cmd
    /\ (forall v i, env !! "XDS_SDK_BUF_STDOUT" = Some v ->
                    strconv.Atoi v = Some i -> SizeBufStdout cmd = i)
    /\ (forall v i, env !! "XDS_SDK_BUF_STDERR" = Some v ->
                    strconv.Atoi v = Some i -> SizeBufStderr cmd = i)
    /\ (env !! "XDS_SDK_BUF_STDOUT" = None
        \/ (exists v, env !! "XDS_SDK_BUF_STDOUT" = Some v
                      /\ strconv.Atoi v = None) ->
        SizeBufStdout cmd = 10)
    /\ (env !! "XDS_SDK_BUF_STDERR" = None
        \/ (exists v, env !! "XDS_SDK_BUF_STDERR" = Some v
                      /\ strconv.Atoi v = None) ->
        SizeBufStderr cmd = 2000).
Proof.
  intros H1 H2.
  destruct (Install_accepted env Start file force timeout sessID g s H1 H2)
    as (cmd & s' & E & Hc & _ & _ & _ & Ho & He & _).
  exists cmd, s'. rewrite Ho, He. unfold sizeBuf.
  repeat split; try done.
  - intros v i -> ->. done.
  - intros v i -> ->. done.
  - intros [-> | (v & -> & ->)]; done.
  - intros [-> | (v & -> & ->)]; done.
Qed.

(** C2, as the code has it: Remove on an installed SDK sets the status to
    Uninstalling, runs the remove script on the path, and returns; the status
    is Uninstalling afterwards whether the script failed (an error is
    returned) or succeeded (nil is returned): no assignment follows the
    script. *)
Theorem Remove_leaves_Uninstalling (h : Host) (s : CrossSDK) :
  Status (sdk s) = SdkStatusInstalled ->
  exists out err,
    CombinedOutput h (default "" (scripts s !! scriptRemove) +:+ " "
                      +:+ Path (sdk s)) = (out, err)
    /\ Remove h s
       = (set_sdk (with_Status SdkStatusUninstalling (sdk s)) s,
          (fun e => "Error while uninstalling sdk: " +:+ e) <$> err).
Proof.
  intros H. unfold Remove. rewrite bool_decide_true by done. simpl.
  destruct (CombinedOutput h _) as [out [e|]] eqn:E;
    eexists _, _; (split; [reflexivity|]); reflexivity.
Qed.

(** ** The callbacks *)

(** C1, as the code has it: when the session of the job has no socket any
    more, the exit callback returns right after the lookup; the status, the
    last error and the job handle are what they were, whatever the exit code
    and the process error, and nothing is emitted. *)
Theorem ExitCB_session_closed_changes_nothing
    (e : ExecOverWS) code exitError mo (w : World) sdkID :
  UserData e !! "SDKID" = Some sdkID ->
  16 <= len sdkID ->
  IOSocketGet mo (Sid e) = false ->
  ExitCB e code exitError mo w = Some w.
Proof.
  intros HU HL HS. unfold ExitCB. rewrite HU. simpl.
  destruct (Z.ltb_spec (len sdkID) 16) as [?|_]; [lia|].
  by rewrite HS.
Qed.

(** With a socket for the session, the exit callback does all its work: the
    status and the last error follow the exit code and the process error, the
    job handle is released, and the last event is the terminal one. *)
Lemma ExitCB_session_open
    (e : ExecOverWS) code exitError mo (w : World) sdkID :
  UserData e !! "SDKID" = Some sdkID ->
  16 <= len sdkID ->
  IOSocketGet mo (Sid e) = true ->
  exists w' terminal,
    ExitCB e code exitError mo w = Some w'
    /\ installCmd (self w') = None
    /\ (code = 0 /\ exitError = None ->
        Status (sdk (self w')) = SdkStatusInstalled
        /\ LastError (sdk (self w')) = "")
    /\ (~ (code = 0 /\ exitError = None) ->
        Status (sdk (self w')) = SdkStatusNotInstalled
        /\ LastError (sdk (self w')) <> "")
    /\ emitted w' = emitted w ++ exitFlush e mo (self w) ++ [terminal]
    /\ Exited terminal = true /\ Progress terminal = 100
    /\ Code terminal = code.
Proof.
  intros HU HL HS. unfold ExitCB, exitFlush. rewrite HU. simpl.
  destruct (Z.ltb_spec (len sdkID) 16) as [?|_]; [lia|].
  rewrite HS. simpl.
  destruct ((len (bufStderr (self w)) >? 0)
            || (len (bufStdout (self w)) >? 0));
    destruct (Z.eqb_spec code 0) as [->|Hc];
    destruct exitError as [m|]; simpl;
    (eexists _, _; split; [reflexivity|]); simpl;
    rewrite <- ?app_assoc; simpl;
    (repeat split; try done;
     try (intros Hm; destruct (append_eq_empty _ _ Hm); discriminate);
     try (exfalso; intuition congruence)).
Qed.

(** A job that writes nothing to standard error passes only empty strings. *)
Lemma totalStderr_empty (chunks : list Chunk) :
  totalStderr chunks = "" -> Forall (fun c => c_stderr c = "") chunks.
Proof.
  induction chunks as [|c cs IH]; intros H; [constructor|].
  simpl in H. apply append_eq_empty in H as [H1 H2].
  constructor; auto.
Qed.

(** The output callback below the thresholds: with a socket for the session
    it only appends to the buffers. *)
Lemma OutputCB_buffers (e : ExecOverWS) stdout mo (w : World) sdkID :
  UserData e !! "SDKID" = Some sdkID ->
  (LogLevelSilly (ctx (self w)) = true -> 4 <= len (Sid e) /\ 16 <= len sdkID) ->
  IOSocketGet mo (Sid e) = true ->
  0 <= SizeBufStderr e ->
  bufStderr (self w) = "" ->
  len (bufStdout (self w) +:+ stdout) <= SizeBufStdout e ->
  OutputCB e stdout "" mo w
  = Some (update (set_bufs (bufStdout (self w) +:+ stdout) "") w).
Proof.
  intros HU HS HL HE Hb Hn. unfold OutputCB. rewrite HU, HL. simpl.
  assert (LogLevelSilly (ctx (self w))
          && ((len (Sid e) <? 4) || (len sdkID <? 16)) = false) as ->.
  { destruct (LogLevelSilly (ctx (self w))); [|done].
    destruct HS as [? ?]; [done|]. simpl.
    apply orb_false_iff; split; apply Z.ltb_ge; lia. }
  unfold update at 1. simpl. rewrite Hb. change ("" +:+ "") with "".
  assert ((len (bufStdout (self w) +:+ stdout) >? SizeBufStdout e)
          || (len "" >? SizeBufStderr e) = false) as ->.
  { apply orb_false_iff.
    rewrite !Z.gtb_ltb. split; apply Z.ltb_ge; [lia|]. exact HE. }
  unfold update. simpl. rewrite Hb. reflexivity.
Qed.

Lemma runOutput_buffers (e : ExecOverWS) chunks (w : World) sdkID :
  UserData e !! "SDKID" = Some sdkID ->
  (LogLevelSilly (ctx (self w)) = true -> 4 <= len (Sid e) /\ 16 <= len sdkID) ->
  Forall (fun c => IOSocketGet (c_at c) (Sid e) = true) chunks ->
  0 <= SizeBufStderr e ->
  bufStderr (self w) = "" ->
  totalStderr chunks = "" ->
  len (bufStdout (self w) +:+ totalStdout chunks) <= SizeBufStdout e ->
  runOutput e chunks w
  = Some (update (set_bufs (bufStdout (self w) +:+ totalStdout chunks) "") w).
Proof.
  intros HU HS HL HE. revert w HS.
  induction HL as [|c cs Hc HL IH]; intros w HS Hb Ht Hn.
  - simpl. rewrite append_empty_r. destruct w as [[] ?]. simpl in *.
    by rewrite Hb.
  - simpl in Ht. apply append_eq_empty in Ht as [Hc0 Ht].
    simpl in Hn |- *. rewrite Hc0.
    assert (len (bufStdout (self w) +:+ c_stdout c) <= SizeBufStdout e).
    { rewrite <- append_assoc, len_append in Hn.
      pose proof (len_nonneg (totalStdout cs)). lia. }
    rewrite (OutputCB_buffers e _ _ w sdkID) by done. simpl.
    rewrite IH; simpl; try done.
    + by rewrite append_assoc.
    + by rewrite append_assoc.
Qed.

(** C9, amended: take a job whose command carries the SDK id (16 characters
    at least, and a session id of 4 at least when the silly log level is on),
    whose session has a socket at every callback, with a stderr threshold
    that is not negative, starting from empty buffers as Install leaves
    them.  If it writes nothing to standard error and no more than the
    stdout threshold to standard output, the output callback emits nothing,
    and the exit callback emits the whole standard output in one event that
    is not terminal, unless it is empty, and then the terminal event. *)
Theorem small_output_flushed_at_exit
    (e : ExecOverWS) chunks code exitError mo (w : World) sdkID :
  UserData e !! "SDKID" = Some sdkID ->
  16 <= len sdkID ->
  (LogLevelSilly (ctx (self w)) = true -> 4 <= len (Sid e)) ->
  Forall (fun c => IOSocketGet (c_at c) (Sid e) = true) chunks ->
  IOSocketGet mo (Sid e) = true ->
  0 <= SizeBufStderr e ->
  bufStdout (self w) = "" -> bufStderr (self w) = "" ->
  totalStderr chunks = "" ->
  len (totalStdout chunks) <= SizeBufStdout e ->
  flushedAtExit e chunks code exitError mo w.
Proof.
  intros HU H16 H4 HL Hmo HE Hbo Hbe Hte Hto.
  pose proof (runOutput_buffers e chunks w sdkID HU) as HR.
  rewrite Hbo in HR. change ("" +:+ totalStdout chunks)
    with (totalStdout chunks) in HR.
  specialize (HR (fun H => conj (H4 H) H16) HL HE Hbe Hte Hto).
  set (w1 := update (set_bufs (totalStdout chunks) "") w) in *.
  destruct (ExitCB_session_open e code exitError mo w1 sdkID HU H16 Hmo)
    as (w2 & terminal & HX & _ & _ & _ & Hem & Hex & Hpr & Hco).
  exists w1, w2, terminal. unfold runJob. rewrite HR. simpl.
  repeat split; try done.
  rewrite Hem. unfold exitFlush. simpl.
  destruct (decide (totalStdout chunks = "")) as [->|Hne]; [done|].
  assert ((len (totalStdout chunks) >? 0) = true) as ->; [|done].
  apply Z.gtb_lt. pose proof (len_nonneg (totalStdout chunks)).
  destruct (Z.eq_dec (len (totalStdout chunks)) 0) as [E|E]; [|lia].
  apply len_zero in E. done.
Qed.

(** C9 as stated fails in two ways.  A job prints five bytes, below the
    threshold of ten, and nothing on standard error.  When the session has
    lost its socket by the time the job exits, the exit callback emits
    nothing, and the five bytes stay in the buffer.  And when the threshold
    for standard error is negative, the output callback emits an event at
    once. *)
Lemma small_output_not_always_flushed :
  (len (totalStdout Sample.hello) <= SizeBufStdout Sample.cmd
   /\ totalStderr Sample.hello = ""
   /\ ~ flushedAtExit Sample.cmd Sample.hello 0 None Sample.disconnected
          Sample.start)
  /\ (len (totalStdout Sample.hello) <= SizeBufStdout Sample.cmdNegative
      /\ totalStderr Sample.hello = ""
      /\ ~ flushedAtExit Sample.cmdNegative Sample.hello 0 None
             Sample.connected Sample.start).
Proof.
  split; (split; [by vm_compute|]); (split; [reflexivity|]).
  - intros (w1 & w2 & t & _ & _ & H3 & H4 & _).
    vm_compute in H3. injection H3 as <-. simpl in H4. discriminate.
  - intros (w1 & w2 & t & H1 & H2 & _).
    vm_compute in H1. injection H1 as <-. simpl in H2. discriminate.
Qed.

(** ** The properties at the sample data *)

Lemma precondition_violation_witness :
  (Status (sdk Sample.installed) = SdkStatusInstalled
   /\ Install ∅ Sample.startOK "" false 0 "sid-1" 7 Sample.installed
      = (7, Sample.installed, Some "already installed"))
  /\ (Status (sdk Sample.installing) = SdkStatusInstalling
      /\ Install ∅ Sample.startOK "" false 0 "sid-1" 7 Sample.installing
         = (7, Sample.installing, Some "installation in progress"))
  /\ (installCmd Sample.notInstalled = None
      /\ AbortInstallRemove Sample.signal 0 Sample.notInstalled
         = (Sample.notInstalled,
            Some "no installation in progress for this sdk")).
Proof.
  split; [|split].
  - split; [reflexivity|].
    apply (proj1 (precondition_violation_changes_nothing
                    ∅ Sample.startOK "" false 0 "sid-1" 7 Sample.signal
                    Sample.installed)).
    reflexivity.
  - split; [reflexivity|].
    apply (proj1 (proj2 (precondition_violation_changes_nothing
                           ∅ Sample.startOK "" false 0 "sid-1" 7
                           Sample.signal Sample.installing))).
    reflexivity.
  - split; [reflexivity|].
    apply (proj2 (proj2 (precondition_violation_changes_nothing
                           ∅ Sample.startOK "" false 0 "sid-1" 7
                           Sample.signal Sample.notInstalled))).
    reflexivity.
Defined.

Lemma Install_start_failure_witness :
  Status (sdk Sample.notInstalled) <> SdkStatusInstalled
  /\ Status (sdk Sample.notInstalled) <> SdkStatusInstalling
  /\ exists cmd s',
       Install ∅ Sample.startFails "" false 0 "sid-1" 0 Sample.notInstalled
       = (incr_int 0, s', Sample.startFails cmd)
       /\ installCmd s' = Some cmd
       /\ Status (sdk s') = SdkStatusInstalling
       /\ Status (sdk s') <> SdkStatusNotInstalled
       /\ LastError (sdk s') = "".
Proof.
  assert (H1 : Status (sdk Sample.notInstalled) <> SdkStatusInstalled)
    by discriminate.
  assert (H2 : Status (sdk Sample.notInstalled) <> SdkStatusInstalling)
    by discriminate.
  split; [exact H1|]. split; [exact H2|].
  exact (Install_start_failure_keeps_Installing
           ∅ Sample.startFails "" false 0 "sid-1" 0 Sample.notInstalled
           H1 H2).
Defined.

(** The failing start, evaluated: the error comes back, and the SDK is left
    Installing with the job handle held. *)
Example Install_start_failure_run :
  Install ∅ Sample.startFails "" false 0 "sid-1" 0 Sample.notInstalled
  = (1, Sample.installing,
     Some "fork/exec /scripts/agl/add: permission denied").
Proof. vm_compute. reflexivity. Qed.

Lemma Install_thresholds_witness :
  Status (sdk Sample.notInstalled) <> SdkStatusInstalled
  /\ Status (sdk Sample.notInstalled) <> SdkStatusInstalling
  /\ exists cmd s',
       Install Sample.environment Sample.startOK "" false 0 "sid-1" 0
               Sample.notInstalled
       = (incr_int 0, s', Sample.startOK cmd)
       /\ installCmd s' = Some cmd
       /\ (forall v i, Sample.environment !! "XDS_SDK_BUF_STDOUT" = Some v ->
                       strconv.Atoi v = Some i -> SizeBufStdout cmd = i)
       /\ (forall v i, Sample.environment !! "XDS_SDK_BUF_STDERR" = Some v ->
                       strconv.Atoi v = Some i -> SizeBufStderr cmd = i)
       /\ (Sample.environment !! "XDS_SDK_BUF_STDOUT" = None
           \/ (exists v, Sample.environment !! "XDS_SDK_BUF_STDOUT" = Some v
                         /\ strconv.Atoi v = None) ->
           SizeBufStdout cmd = 10)
       /\ (Sample.environment !! "XDS_SDK_BUF_STDERR" = None
           \/ (exists v, Sample.environment !! "XDS_SDK_BUF_STDERR" = Some v
                         /\ strconv.Atoi v = None) ->
           SizeBufStderr cmd = 2000).
Proof.
  assert (H1 : Status (sdk Sample.notInstalled) <> SdkStatusInstalled)
    by discriminate.
  assert (H2 : Status (sdk Sample.notInstalled) <> SdkStatusInstalling)
    by discriminate.
  split; [exact H1|]. split; [exact H2|].
  exact (Install_thresholds_from_environment
           Sample.environment Sample.startOK "" false 0 "sid-1" 0
           Sample.notInstalled H1 H2).
Defined.

(** The sample environment sets the stdout threshold to 64 and gives a stderr
    threshold that is no number: 64 and the default 2000 are used, and
    Install succeeds. *)
Example Install_thresholds_run :
  let '(_, s', err) :=
    Install Sample.environment Sample.startOK "" false 0 "sid-1" 0
            Sample.notInstalled in
  err = None
  /\ (SizeBufStdout <$> installCmd s') = Some 64
  /\ (SizeBufStderr <$> installCmd s') = Some 2000.
Proof. vm_compute. done. Qed.

Example Atoi_runs :
  strconv.Atoi "64" = Some 64 /\ strconv.Atoi "-1" = Some (-1)
  /\ strconv.Atoi "+7" = Some 7 /\ strconv.Atoi "lots" = None
  /\ strconv.Atoi "" = None /\ strconv.Atoi "12 " = None
  /\ strconv.Atoi "9223372036854775808" = None.
Proof. vm_compute. done. Qed.

Lemma Remove_leaves_Uninstalling_witness :
  Status (sdk Sample.installed) = SdkStatusInstalled
  /\ exists out err,
       CombinedOutput Sample.host
         (default "" (scripts Sample.installed !! scriptRemove) +:+ " "
          +:+ Path (sdk Sample.installed)) = (out, err)
       /\ Remove Sample.host Sample.installed
          = (set_sdk (with_Status SdkStatusUninstalling
                        (sdk Sample.installed)) Sample.installed,
             (fun e => "Error while uninstalling sdk: " +:+ e) <$> err).
Proof.
  split; [reflexivity|].
  exact (Remove_leaves_Uninstalling Sample.host Sample.installed eq_refl).
Defined.

(** The remove script succeeds: nil is returned, the status is
    Uninstalling. *)
Example Remove_success_run :
  let '(s', err) := Remove Sample.host Sample.installed in
  err = None /\ Status (sdk s') = SdkStatusUninstalling
  /\ Status (sdk s') <> SdkStatusNotInstalled.
Proof. vm_compute. done. Qed.

(** The remove script fails: an error is returned, the status is
    Uninstalling. *)
Example Remove_failure_run :
  let '(s', err) := Remove Sample.brokenHost Sample.installed in
  err = Some "Error while uninstalling sdk: exit status 1"
  /\ Status (sdk s') = SdkStatusUninstalling.
Proof. vm_compute. done. Qed.

Lemma ExitCB_session_closed_witness :
  UserData Sample.cmd !! "SDKID" = Some Sample.sdkId
  /\ 16 <= len Sample.sdkId
  /\ IOSocketGet Sample.disconnected (Sid Sample.cmd) = false
  /\ ExitCB Sample.cmd 0 None Sample.disconnected Sample.start
     = Some Sample.start.
Proof.
  assert (H1 : UserData Sample.cmd !! "SDKID" = Some Sample.sdkId)
    by reflexivity.
  assert (H2 : 16 <= len Sample.sdkId) by (by vm_compute).
  assert (H3 : IOSocketGet Sample.disconnected (Sid Sample.cmd) = false)
    by reflexivity.
  split; [exact H1|]. split; [exact H2|]. split; [exact H3|].
  exact (ExitCB_session_closed_changes_nothing
           Sample.cmd 0 None Sample.disconnected Sample.start Sample.sdkId
           H1 H2 H3).
Defined.

(** The job ended well but the session is gone: the SDK stays Installing and
    the job handle stays. *)
Example ExitCB_session_closed_run :
  (self <$> ExitCB Sample.cmd 0 None Sample.disconnected Sample.start)
  = Some Sample.installing
  /\ Status (sdk Sample.installing) = SdkStatusInstalling
  /\ installCmd Sample.installing = Some Sample.cmd.
Proof. vm_compute. done. Qed.

Lemma small_output_flushed_witness :
  UserData Sample.cmd !! "SDKID" = Some Sample.sdkId
  /\ 16 <= len Sample.sdkId
  /\ IOSocketGet Sample.connected (Sid Sample.cmd) = true
  /\ 0 <= SizeBufStderr Sample.cmd
  /\ totalStderr Sample.hello = ""
  /\ len (totalStdout Sample.hello) <= SizeBufStdout Sample.cmd
  /\ flushedAtExit Sample.cmd Sample.hello 0 None Sample.connected
       Sample.start.
Proof.
  assert (H1 : UserData Sample.cmd !! "SDKID" = Some Sample.sdkId)
    by reflexivity.
  assert (H2 : 16 <= len Sample.sdkId) by (by vm_compute).
  assert (H3 : IOSocketGet Sample.connected (Sid Sample.cmd) = true)
    by reflexivity.
  assert (H4 : 0 <= SizeBufStderr Sample.cmd) by (by vm_compute).
  assert (H5 : totalStderr Sample.hello = "") by reflexivity.
  assert (H6 : len (totalStdout Sample.hello) <= SizeBufStdout Sample.cmd)
    by (by vm_compute).
  repeat (split; [assumption|]).
  apply (small_output_flushed_at_exit
           Sample.cmd Sample.hello 0 None Sample.connected Sample.start
           Sample.sdkId H1 H2); try assumption; try reflexivity.
  - discriminate.
  - repeat constructor.
Defined.

(** ** The reconciler *)

Section ReconcilerProperties.

Variable path_dirname : string -> string.
Variable path_join : string -> string -> string.
Variable execSync : string -> option string.
Variable DEBUG : bool.

Abbreviation probe' := (DbDump.probe path_dirname path_join execSync DEBUG).
Abbreviation scan' := (DbDump.scan path_dirname path_join execSync DEBUG).
Abbreviation dbDump' :=
  (DbDump.dbDump path_dirname path_join execSync DEBUG).
Abbreviation localKeys' :=
  (DbDump.localKeys path_dirname path_join execSync DEBUG).

Lemma matches_key p v a (sdk : gmap string string) :
  DbDump.matches p v a sdk = true <-> DbDump.keyOf sdk = (p, v, a).
Proof.
  unfold DbDump.matches, DbDump.keyOf.
  rewrite !andb_true_iff, !bool_decide_eq_true. split.
  - intros [[-> ->] ->]. done.
  - intros [= <- <- <-]. done.
Qed.

Lemma updateFound_other dir sdkDate envFile (sdk : gmap string string) f :
  f ∉ DbDump.localFields ->
  DbDump.updateFound dir sdkDate envFile sdk !! f = sdk !! f.
Proof.
  unfold DbDump.localFields, DbDump.updateFound. intros H.
  rewrite !not_elem_of_cons in H. destruct H as (? & ? & ? & ? & _).
  by rewrite !lookup_insert_ne.
Qed.

Lemma keyOf_updateFound dir sdkDate envFile (sdk : gmap string string) :
  DbDump.keyOf (DbDump.updateFound dir sdkDate envFile sdk)
  = DbDump.keyOf sdk.
Proof.
  unfold DbDump.keyOf, DbDump.updateFound.
  by rewrite !lookup_insert_ne.
Qed.

Lemma updateFound_installed dir sdkDate envFile (sdk : gmap string string) :
  DbDump.updateFound dir sdkDate envFile sdk !! "status" = Some "Installed"
  /\ DbDump.updateFound dir sdkDate envFile sdk !! "path" = Some dir
  /\ DbDump.updateFound dir sdkDate envFile sdk !! "setupFile"
     = Some envFile
  /\ DbDump.updateFound dir sdkDate envFile sdk !! "data" = Some sdkDate
  /\ DbDump.updateFound dir sdkDate envFile sdk !! "date" = sdk !! "date".
Proof. unfold DbDump.updateFound. by simplify_map_eq. Qed.

Lemma prop_lookup k v (o : gmap string string) f :
  DbDump.prop k v o !! f = if decide (k = f) then
                             match v with Some x => Some x | None => o !! f end
                           else o !! f.
Proof.
  unfold DbDump.prop. destruct v; case_decide; simplify_map_eq; done.
Qed.

Lemma synthesized_localOnly p v a dir sdkDate envFile :
  dir <> "" ->
  DbDump.localOnly (p, v, a) (DbDump.synthesized p v a dir sdkDate envFile).
Proof.
  intros Hd. unfold DbDump.localOnly, DbDump.synthesized, DbDump.keyOf.
  split; [|split; [|split]].
  - rewrite !lookup_insert_ne by done. rewrite !prop_lookup.
    repeat case_decide; try done;
      rewrite ?lookup_insert_ne by done; rewrite ?lookup_empty;
      by destruct p, v, a.
  - rewrite !lookup_insert_ne by done. rewrite !prop_lookup.
    repeat case_decide; try done;
      rewrite ?lookup_insert_ne by done; by rewrite ?lookup_insert_eq.
  - rewrite !lookup_insert_ne by done. by rewrite lookup_insert_eq.
  - exists dir. split; [|done].
    rewrite !lookup_insert_ne by done. by rewrite lookup_insert_eq.
Qed.

Lemma probe_Local_dir envFile p v a dir sdkDate :
  probe' envFile = DbDump.Local p v a dir sdkDate -> dir <> "".
Proof.
  unfold DbDump.probe. intros H.
  repeat (case_match; try discriminate). simplify_eq.
  match goal with
  | H : _ || bool_decide (_ = "") = false |- _ =>
      apply orb_false_iff in H as [_ H];
      by apply bool_decide_eq_false in H
  end.
Qed.

Lemma keyOf_same_fields (c c' : gmap string string) :
  (forall f, f ∉ DbDump.localFields -> c' !! f = c !! f) ->
  DbDump.keyOf c' = DbDump.keyOf c.
Proof.
  intros H. unfold DbDump.keyOf.
  rewrite !H; [done|..]; unfold DbDump.localFields;
    rewrite !not_elem_of_cons; repeat split; try done; apply not_elem_of_nil.
Qed.

Section Step.

(** One local install, with key [(p, v, a)], and what line 98 does to an
    entry for it. *)
Variables (p v a : option string) (dir sdkDate envFile : string).
Hypothesis dir_not_empty : dir <> "".

Let upd (sdk : gmap string string) : gmap string string :=
  if DbDump.matches p v a sdk
  then DbDump.updateFound dir sdkDate envFile sdk else sdk.

Lemma upd_key x : DbDump.keyOf (upd x) = DbDump.keyOf x.
Proof.
  unfold upd. case_match; [apply keyOf_updateFound|done].
Qed.

Lemma upd_other x f :
  f ∉ DbDump.localFields -> upd x !! f = x !! f.
Proof.
  unfold upd. case_match; [apply updateFound_other|done].
Qed.

Lemma upd_miss x : DbDump.keyOf x <> (p, v, a) -> upd x = x.
Proof.
  intros H. unfold upd. case_match eqn:E; [|done].
  by apply matches_key in E.
Qed.

Lemma upd_localOnly k x : DbDump.localOnly k x -> DbDump.localOnly k (upd x).
Proof.
  intros (Hk & Hn & Hs & Hp). unfold upd. case_match; [|done].
  destruct (updateFound_installed dir sdkDate envFile x)
    as (Es & Ep & _).
  split; [by rewrite keyOf_updateFound|].
  split; [|split; [done|by exists dir]].
  rewrite updateFound_other; [done|].
  unfold DbDump.localFields. rewrite !not_elem_of_cons.
  repeat split; try done. apply not_elem_of_nil.
Qed.

Lemma merge_merged catalog locals cur :
  DbDump.merged catalog locals cur ->
  DbDump.merged catalog (locals ++ [(p, v, a)])
                (DbDump.merge p v a dir sdkDate envFile cur).
Proof.
  intros (cat & synth & -> & H2 & H3 & H4 & H5).
  unfold DbDump.merge. fold upd. rewrite fmap_app.
  assert (P2 : Forall2 (fun c c' => forall f, f ∉ DbDump.localFields ->
                                              c' !! f = c !! f)
                       catalog (upd <$> cat)).
  { apply Forall2_fmap_r. eapply Forall2_impl; [exact H2|].
    intros c c' Hc f Hf. simpl. rewrite upd_other by done. auto. }
  assert (P3 : Forall (fun c' => DbDump.keyOf c' ∉ locals ++ [(p, v, a)] ->
                                 c' !! "status" = Some "Not Installed")
                      (upd <$> cat)).
  { apply Forall_fmap. eapply Forall_impl; [exact H3|].
    intros c' Hc Hn. simpl in *. rewrite upd_key in Hn.
    rewrite not_elem_of_app, not_elem_of_cons in Hn.
    destruct Hn as (Hn1 & Hn2 & _).
    rewrite upd_miss by done. auto. }
  assert (P4 : Forall (fun e => DbDump.keyOf e ∈ locals ++ [(p, v, a)]
                         /\ (forall c, c ∈ catalog ->
                                        DbDump.keyOf c <> DbDump.keyOf e)
                         /\ DbDump.localOnly (DbDump.keyOf e) e)
                      (upd <$> synth)).
  { apply Forall_fmap. eapply Forall_impl; [exact H4|].
    intros e (He1 & He2 & He3). simpl. rewrite upd_key.
    split; [apply elem_of_app; by left|].
    split; [done|]. by apply upd_localOnly. }
  assert (P5 : forall k, k ∈ locals ->
                 exists e, e ∈ (upd <$> cat) ++ (upd <$> synth)
                           /\ DbDump.keyOf e = k).
  { intros k Hk. destruct (H5 k Hk) as (e & He & Hek).
    exists (upd e). split; [|by rewrite upd_key].
    rewrite <- fmap_app. by apply list_elem_of_fmap_2. }
  destruct (existsb (DbDump.matches p v a) (cat ++ synth)) eqn:Ef; simpl.
  - exists (upd <$> cat), (upd <$> synth).
    repeat split; try done.
    intros k [Hk| ->%list_elem_of_singleton]%elem_of_app; [by apply P5|].
    apply existsb_exists in Ef as (x & Hx%list_elem_of_In & Hm).
    exists (upd x). split.
    + rewrite <- fmap_app. by apply list_elem_of_fmap_2.
    + rewrite upd_key. by apply matches_key.
  - exists (upd <$> cat),
           ((upd <$> synth)
              ++ [DbDump.synthesized p v a dir sdkDate envFile]).
    pose proof (synthesized_localOnly p v a dir sdkDate envFile
                  dir_not_empty) as Hnew.
    assert (Hkey : DbDump.keyOf
                     (DbDump.synthesized p v a dir sdkDate envFile)
                   = (p, v, a)) by apply Hnew.
    split; [by rewrite app_assoc|].
    split; [done|]. split; [done|]. split.
    + apply Forall_app. split; [done|].
      apply Forall_singleton. rewrite Hkey.
      split; [apply elem_of_app; right; by apply list_elem_of_singleton|].
      split; [|done].
      intros c Hc Hck.
      apply list_elem_of_lookup in Hc as [i Hi].
      destruct (Forall2_lookup_l _ _ _ _ _ H2 Hi) as (c' & Hi' & Hcc).
      apply keyOf_same_fields in Hcc.
      assert (existsb (DbDump.matches p v a) (cat ++ synth) = true)
        as Ht; [|by rewrite Ht in Ef].
      apply existsb_exists. exists c'. split.
      * apply list_elem_of_In, elem_of_app. left.
        by eapply list_elem_of_lookup_2.
      * apply matches_key. by rewrite Hcc.
    + intros k [Hk| ->%list_elem_of_singleton]%elem_of_app.
      * destruct (P5 k Hk) as (e & He & Hek).
        exists e. split; [|done].
        apply elem_of_app. by left.
      * exists (DbDump.synthesized p v a dir sdkDate envFile).
        split; [|done].
        apply elem_of_app. right.
        by apply list_elem_of_singleton.
Qed.

End Step.

Lemma scan_merged catalog lines : forall locals cur out,
  DbDump.merged catalog locals cur ->
  scan' lines cur = Some out ->
  DbDump.merged catalog (locals ++ localKeys' lines) out.
Proof.
  induction lines as [|envFile rest IH]; intros locals cur out Hm Hs.
  - simpl in *. rewrite app_nil_r. by injection Hs as <-.
  - simpl in Hs. unfold DbDump.localKeys. simpl.
    destruct (probe' envFile) as [| |p v a dir sdkDate] eqn:E.
    + by apply IH with cur.
    + discriminate.
    + rewrite cons_middle, app_assoc.
      apply IH with (DbDump.merge p v a dir sdkDate envFile cur); [|done].
      apply merge_merged; [|done].
      by eapply probe_Local_dir.
Qed.

(** Without -debug the scan never exits early. *)
Lemma scan_prints lines : forall cur,
  DEBUG = false -> exists out, scan' lines cur = Some out.
Proof.
  induction lines as [|envFile rest IH]; intros cur HD; [by eexists|].
  simpl. destruct (probe' envFile) eqn:E; auto.
  unfold DbDump.probe in E. rewrite HD in E.
  repeat (case_match; try discriminate).
Qed.

Lemma dbDump_prints catalog data :
  DEBUG = false -> execSync DbDump.findCmd = Some data ->
  exists out, dbDump' catalog = Some out.
Proof.
  intros HD Hf. unfold DbDump.dbDump. rewrite Hf. simpl.
  by apply scan_prints.
Qed.

Lemma merged_initially (catalog : list (gmap string string)) :
  DbDump.merged catalog []
    ((fun sdk => <["status" := "Not Installed"]> sdk) <$> catalog).
Proof.
  exists ((fun sdk => <["status" := "Not Installed"]> sdk) <$> catalog), [].
  split; [by rewrite app_nil_r|].
  split; [|split; [|split]].
  - apply Forall2_fmap_r, Forall_Forall2_diag, Forall_forall.
    intros c _ f Hf. simpl. apply lookup_insert_ne.
    intros <-. apply Hf. unfold DbDump.localFields.
    rewrite !elem_of_cons. auto.
  - apply Forall_fmap, Forall_forall. intros c _ _. simpl.
    apply lookup_insert_eq.
  - constructor.
  - intros k Hk. by apply elem_of_nil in Hk.
Qed.

(** C7: when the script prints, the list is the catalog in its order,
    each entry changed in the local fields at most, followed by entries
    made for local installs.  An entry of the catalog whose key no local
    install has is 'Not Installed'.  A local install whose key no entry of
    the catalog has is found among the entries that follow, named
    profile-arch-version, 'Installed', with a path that is not empty; and
    every entry that follows the catalog is of that kind. *)
Theorem dbDump_merged_inventory (catalog out : list (gmap string string)) :
  DbDump.dbDump path_dirname path_join execSync DEBUG catalog = Some out ->
  exists data cat synth,
    execSync DbDump.findCmd = Some data
    /\ out = cat ++ synth
    /\ length cat = length catalog
    /\ (forall i c, catalog !! i = Some c ->
          exists c', cat !! i = Some c'
                     /\ forall f, f ∉ DbDump.localFields ->
                                  c' !! f = c !! f)
    /\ (forall c', c' ∈ cat ->
          DbDump.keyOf c' ∉ localKeys' (DbDump.split "010" data) ->
          c' !! "status" = Some "Not Installed")
    /\ (forall k, k ∈ localKeys' (DbDump.split "010" data) ->
          (forall c, c ∈ catalog -> DbDump.keyOf c <> k) ->
          exists e, e ∈ synth /\ DbDump.localOnly k e)
    /\ (forall e, e ∈ synth ->
          DbDump.keyOf e ∈ localKeys' (DbDump.split "010" data)
          /\ (forall c, c ∈ catalog -> DbDump.keyOf c <> DbDump.keyOf e)
          /\ DbDump.localOnly (DbDump.keyOf e) e).
Proof.
  unfold DbDump.dbDump. intros H.
  destruct (execSync DbDump.findCmd) as [data|] eqn:Ef; [|discriminate].
  simpl in H.
  pose proof (scan_merged catalog _ [] _ out (merged_initially catalog) H)
    as (cat & synth & -> & H2 & H3 & H4 & H5).
  simpl in H3, H4, H5.
  exists data, cat, synth.
  split; [done|]. split; [done|].
  split; [symmetry; by eapply Forall2_length|].
  split; [|split; [|split]].
  - intros i c Hi.
    destruct (Forall2_lookup_l _ _ _ _ _ H2 Hi) as (c' & Hi' & Hcc).
    by exists c'.
  - intros c' Hc. by apply (proj1 (Forall_forall _ _) H3).
  - intros k Hk Hno.
    destruct (H5 k Hk) as (e & [He|He]%elem_of_app & Hek).
    + exfalso. apply list_elem_of_lookup in He as [i Hi].
      destruct (Forall2_lookup_r _ _ _ _ _ H2 Hi) as (c & Hic & Hcc).
      apply keyOf_same_fields in Hcc.
      apply (Hno c); [by eapply list_elem_of_lookup_2|congruence].
    + exists e. split; [done|].
      destruct (proj1 (Forall_forall _ _) H4 e He) as (_ & _ & Hl).
      by rewrite <- Hek.
  - intros e He. by apply (proj1 (Forall_forall _ _) H4).
Qed.

End ReconcilerProperties.

(** C6, as the code has it: the catalog has the SDK that is installed.  Its
    entry becomes 'Installed' and gets the path and the setup file, but the
    normalized timestamp is assigned to a property named data; the property
    date is not assigned, here it stays undefined. *)
Theorem dbDump_match_assigns_data_not_date :
  exists e,
    DbDump.dbDump Sample.dirname Sample.join Sample.execSync false
                  Sample.catalogWith = Some [e]
    /\ e !! "status" = Some "Installed"
    /\ e !! "path" = Some "/xdt/sdk/agl/7.0.0/aarch64"
    /\ e !! "setupFile" = Some Sample.envFile
    /\ e !! "data" = Some "2024-01-15 12:30"
    /\ e !! "date" = None.
Proof.
  eexists. split; [vm_compute; reflexivity|]. vm_compute. done.
Qed.

Lemma dbDump_merged_witness :
  DbDump.dbDump Sample.dirname Sample.join Sample.execSync false
                Sample.catalogWithout = Some Sample.mergedWithout
  /\ exists data cat synth,
       Sample.execSync DbDump.findCmd = Some data
       /\ Sample.mergedWithout = cat ++ synth
       /\ length cat = length Sample.catalogWithout
       /\ (forall i c, Sample.catalogWithout !! i = Some c ->
             exists c', cat !! i = Some c'
                        /\ forall f, f ∉ DbDump.localFields ->
                                     c' !! f = c !! f)
       /\ (forall c', c' ∈ cat ->
             DbDump.keyOf c'
             ∉ DbDump.localKeys Sample.dirname Sample.join Sample.execSync
                 false (DbDump.split "010" data) ->
             c' !! "status" = Some "Not Installed")
       /\ (forall k,
             k ∈ DbDump.localKeys Sample.dirname Sample.join Sample.execSync
                   false (DbDump.split "010" data) ->
             (forall c, c ∈ Sample.catalogWithout -> DbDump.keyOf c <> k) ->
             exists e, e ∈ synth /\ DbDump.localOnly k e)
       /\ (forall e, e ∈ synth ->
             DbDump.keyOf e
             ∈ DbDump.localKeys Sample.dirname Sample.join Sample.execSync
                 false (DbDump.split "010" data)
             /\ (forall c, c ∈ Sample.catalogWithout ->
                           DbDump.keyOf c <> DbDump.keyOf e)
             /\ DbDump.localOnly (DbDump.keyOf e) e).
Proof.
  assert (H : DbDump.dbDump Sample.dirname Sample.join Sample.execSync false
                Sample.catalogWithout = Some Sample.mergedWithout)
    by (vm_compute; reflexivity).
  split; [exact H|].
  exact (dbDump_merged_inventory Sample.dirname Sample.join Sample.execSync
           false Sample.catalogWithout Sample.mergedWithout H).
Defined.

(** The install that the catalog does not have gets an entry after the
    catalog, with the date of its version file. *)
Example dbDump_local_only_run :
  exists c e,
    DbDump.dbDump Sample.dirname Sample.join Sample.execSync false
                  Sample.catalogWithout = Some [c; e]
    /\ c !! "status" = Some "Not Installed"
    /\ e !! "name" = Some "agl-aarch64-7.0.0"
    /\ e !! "status" = Some "Installed"
    /\ e !! "path" = Some "/xdt/sdk/agl/7.0.0/aarch64"
    /\ e !! "date" = Some "2024-01-15 12:30".
Proof.
  eexists _, _. split; [vm_compute; reflexivity|]. vm_compute. done.
Qed.

(** * Further properties *)

(** ** The validator *)

Section ValidatorRules.

Variable path_Join : string -> string -> string.
Variable UUID : Type.
Variable uuid_FromStringOrNil : string -> UUID.
Variable uuid_NewV3 : UUID -> string -> UUID.
Variable uuid_String : UUID -> string.

(** When the loop over the scripts finds none missing, every script it went
    through is in the map under its path and exists, and the other entries
    of the map are untouched. *)
Lemma checkScripts_found h scriptDir famName scrs :
  forall m m',
    checkScripts path_Join h scriptDir famName scrs m = (m', None) ->
    (forall scr, scr ∈ scrs ->
                 m' !! scr = Some (path_Join scriptDir scr)
                 /\ Exists h (path_Join scriptDir scr) = true)
    /\ (forall k, k ∉ scrs -> m' !! k = m !! k).
Proof.
  induction scrs as [|scr rest IH]; intros m m' H; simpl in H.
  - injection H as <-. split; [intros scr Hs; by apply elem_of_nil in Hs|done].
  - rewrite lookup_insert_eq in H. simpl in H.
    destruct (Exists h (path_Join scriptDir scr)) eqn:E; [|discriminate].
    simpl in H. apply IH in H as [H1 H2]. split.
    + intros x [->|Hx]%elem_of_cons; [|by apply H1].
      split; [|done].
      destruct (decide (scr ∈ rest)) as [Hin|Hin]; [by apply H1|].
      rewrite H2 by done. apply lookup_insert_eq.
    + intros k [Hk1 Hk2]%not_elem_of_cons.
      rewrite H2 by done. by apply lookup_insert_ne.
Qed.

Lemma checkScripts_all_exist h scriptDir famName scrs :
  (forall scr, scr ∈ scrs -> Exists h (path_Join scriptDir scr) = true) ->
  forall m, exists m',
    checkScripts path_Join h scriptDir famName scrs m = (m', None).
Proof.
  induction scrs as [|scr rest IH]; intros H m; simpl; [by eexists|].
  rewrite lookup_insert_eq. simpl.
  rewrite H by apply list_elem_of_here. simpl.
  apply IH. intros x Hx. apply H. by apply list_elem_of_further.
Qed.

Local Arguments checkScripts : simpl never.

(** Acceptance, stage by stage. *)
Lemma NewCrossSDK_stages h c sdk0 scriptDir s :
  NewCrossSDK path_Join UUID uuid_FromStringOrNil uuid_NewV3 uuid_String
              h c sdk0 scriptDir = (s, None) ->
  exists out fc m,
    Exists h (path_Join scriptDir scriptGetConfig) = true
    /\ CombinedOutput h (path_Join scriptDir scriptGetConfig) = (out, None)
    /\ Unmarshal h out (FamilyConf sdk0) = (fc, None)
    /\ RootDir fc <> "" /\ EnvSetupFile fc <> ""
    /\ checkScripts path_Join h scriptDir (FamilyName fc) scriptsAll ∅
       = (m, None)
    /\ (Name sdk0 <> "" /\ Profile sdk0 <> "" /\ Version sdk0 <> ""
        /\ Arch sdk0 <> "")
    /\ (Status sdk0 = SdkStatusInstalled ->
        SetupFile sdk0 <> "" /\ Exists h (SetupFile sdk0) = true
        /\ Path sdk0 <> "" /\ Exists h (Path sdk0) = true)
    /\ s = mkCrossSDK c
             (with_ID (sdkID UUID uuid_FromStringOrNil uuid_NewV3 uuid_String
                             (with_FamilyConf fc sdk0))
                      (with_FamilyConf fc sdk0))
             m None None "" "".
Proof.
  unfold NewCrossSDK. intros H.
  destruct (Exists h (path_Join scriptDir scriptGetConfig)) eqn:E0;
    [|discriminate]. simpl in H.
  destruct (CombinedOutput h _) as [out [e|]] eqn:E1; [discriminate|].
  simpl in H.
  destruct (Unmarshal h _ _) as [fc [e|]] eqn:E2; [discriminate|].
  simpl in H.
  destruct (decide (RootDir fc = "")) as [|E3]; [discriminate|].
  destruct (decide (EnvSetupFile fc = "")) as [|E4]; [discriminate|].
  destruct (checkScripts _ _ _ _ _ _) as [m [e|]] eqn:E5; [discriminate|].
  exists out, fc, m. do 6 (split; [done|]).
  destruct (decide (Status sdk0 = "")) as [Es|Es];
    simpl in H;
    (destruct (decide (Name sdk0 = "")); [discriminate|]);
    (destruct (decide (Profile sdk0 = "")); [discriminate|]);
    (destruct (decide (Version sdk0 = "")); [discriminate|]);
    (destruct (decide (Arch sdk0 = "")); [discriminate|]).
  - injection H as <-. split; [done|]. split; [|done].
    intros Hi. rewrite Es in Hi. discriminate.
  - destruct (decide (Status sdk0 = SdkStatusInstalled)) as [Ei|Ei].
    + destruct (decide (SetupFile sdk0 = "")); [discriminate|].
      destruct (Exists h (SetupFile sdk0)) eqn:E6; [|discriminate].
      simpl in H.
      destruct (decide (Path sdk0 = "")); [discriminate|].
      destruct (Exists h (Path sdk0)) eqn:E7; [|discriminate].
      simpl in H. injection H as <-. done.
    + injection H as <-. done.
Qed.

(** X1: an accepted record has a name, a profile, a version and an
    architecture; the family configuration stored with it has a root
    directory and a setup file name; and when the record says Installed, its
    setup file and its path are set and exist on the machine. *)
Theorem NewCrossSDK_accepted_is_valid h c sdk0 scriptDir s :
  NewCrossSDK path_Join UUID uuid_FromStringOrNil uuid_NewV3 uuid_String
              h c sdk0 scriptDir = (s, None) ->
  (Name (sdk s) <> "" /\ Profile (sdk s) <> "" /\ Version (sdk s) <> ""
   /\ Arch (sdk s) <> "")
  /\ (RootDir (FamilyConf (sdk s)) <> ""
      /\ EnvSetupFile (FamilyConf (sdk s)) <> "")
  /\ (Status (sdk s) = SdkStatusInstalled ->
      SetupFile (sdk s) <> "" /\ Exists h (SetupFile (sdk s)) = true
      /\ Path (sdk s) <> "" /\ Exists h (Path (sdk s)) = true).
Proof.
  intros H.
  apply NewCrossSDK_stages in H
    as (out & fc & m & _ & _ & _ & Hr & He & _ & Hn & Hi & ->).
  simpl. done.
Qed.

(** X2: the managed SDK of an accepted record knows the five scripts of the
    family, each under the path of the script directory, each existing on
    the machine, and nothing else. *)
Theorem NewCrossSDK_accepted_scripts h c sdk0 scriptDir s :
  NewCrossSDK path_Join UUID uuid_FromStringOrNil uuid_NewV3 uuid_String
              h c sdk0 scriptDir = (s, None) ->
  (forall scr, scr ∈ scriptsAll ->
               scripts s !! scr = Some (path_Join scriptDir scr)
               /\ Exists h (path_Join scriptDir scr) = true)
  /\ (forall k, k ∉ scriptsAll -> scripts s !! k = None).
Proof.
  intros H.
  apply NewCrossSDK_stages in H
    as (out & fc & m & _ & _ & _ & _ & _ & Hc & _ & _ & ->).
  apply checkScripts_found in Hc as [E1 E2]. simpl.
  split; [exact E1|]. intros k Hk. rewrite E2 by done. apply lookup_empty.
Qed.

(** X3: a record is accepted whenever the get-config script exists, runs
    and gives a configuration with a root directory and a setup file name,
    the five scripts exist, the record has a name, a profile, a version and
    an architecture, and, if it says Installed, its setup file and its path
    are set and exist.  The managed record is then the raw one with that
    configuration and the identity derived from the name. *)
Theorem NewCrossSDK_accepts h c sdk0 scriptDir out fc :
  Exists h (path_Join scriptDir scriptGetConfig) = true ->
  CombinedOutput h (path_Join scriptDir scriptGetConfig) = (out, None) ->
  Unmarshal h out (FamilyConf sdk0) = (fc, None) ->
  RootDir fc <> "" -> EnvSetupFile fc <> "" ->
  (forall scr, scr ∈ scriptsAll ->
               Exists h (path_Join scriptDir scr) = true) ->
  Name sdk0 <> "" -> Profile sdk0 <> "" -> Version sdk0 <> "" ->
  Arch sdk0 <> "" ->
  (Status sdk0 = SdkStatusInstalled ->
   SetupFile sdk0 <> "" /\ Exists h (SetupFile sdk0) = true
   /\ Path sdk0 <> "" /\ Exists h (Path sdk0) = true) ->
  exists s,
    NewCrossSDK path_Join UUID uuid_FromStringOrNil uuid_NewV3 uuid_String
                h c sdk0 scriptDir = (s, None)
    /\ sdk s
       = with_ID (uuid_String (uuid_NewV3 (uuid_FromStringOrNil "sdks")
                                          (Name sdk0)))
                 (with_FamilyConf fc sdk0).
Proof.
  intros E0 E1 E2 E3 E4 E5 N1 N2 N3 N4 Hi.
  destruct (checkScripts_all_exist h scriptDir (FamilyName fc) scriptsAll
              E5 ∅) as [m Hm].
  unfold NewCrossSDK. rewrite E0. simpl. rewrite E1. simpl.
  rewrite E2. simpl.
  rewrite !decide_False by done. rewrite Hm.
  assert (Hid : sdkID UUID uuid_FromStringOrNil uuid_NewV3 uuid_String
                      (with_FamilyConf fc sdk0)
                = uuid_String (uuid_NewV3 (uuid_FromStringOrNil "sdks")
                                          (Name sdk0))).
  { unfold sdkID. simpl. by rewrite decide_False. }
  destruct (decide (Status sdk0 = "")) as [Es|Es];
    simpl; rewrite !decide_False by done.
  - eexists. split; [reflexivity|]. simpl. by rewrite Hid.
  - destruct (decide (Status sdk0 = SdkStatusInstalled)) as [Ei|Ei].
    + destruct (Hi Ei) as (H1 & H2 & H3 & H4).
      rewrite !decide_False by done. rewrite H2, H4. simpl.
      eexists. split; [reflexivity|]. simpl. by rewrite Hid.
    + eexists. split; [reflexivity|]. simpl. by rewrite Hid.
Qed.

(** X4: the first failure wins.  With the family in order, a record is
    refused for its name before its profile, for its profile before its
    version, for its version before its architecture; and an installed
    record for its setup file before its path. *)
Theorem NewCrossSDK_first_failure h c sdk0 scriptDir out fc :
  Exists h (path_Join scriptDir scriptGetConfig) = true ->
  CombinedOutput h (path_Join scriptDir scriptGetConfig) = (out, None) ->
  Unmarshal h out (FamilyConf sdk0) = (fc, None) ->
  RootDir fc <> "" -> EnvSetupFile fc <> "" ->
  (forall scr, scr ∈ scriptsAll ->
               Exists h (path_Join scriptDir scr) = true) ->
  let err := (NewCrossSDK path_Join UUID uuid_FromStringOrNil uuid_NewV3
                          uuid_String h c sdk0 scriptDir).2 in
  (Name sdk0 = "" -> err = Some "Invalid SDK definition (name not set)")
  /\ (Name sdk0 <> "" -> Profile sdk0 = "" ->
      err = Some "Invalid SDK definition (profile not set)")
  /\ (Name sdk0 <> "" -> Profile sdk0 <> "" -> Version sdk0 = "" ->
      err = Some "Invalid SDK definition (version not set)")
  /\ (Name sdk0 <> "" -> Profile sdk0 <> "" -> Version sdk0 <> "" ->
      Arch sdk0 = "" ->
      err = Some "Invalid SDK definition (arch not set)")
  /\ (Name sdk0 <> "" -> Profile sdk0 <> "" -> Version sdk0 <> "" ->
      Arch sdk0 <> "" -> Status sdk0 = SdkStatusInstalled ->
      (SetupFile sdk0 = "" ->
       err = Some "Invalid SDK definition (setupFile not set)")
      /\ (SetupFile sdk0 <> "" -> Exists h (SetupFile sdk0) = false ->
          err = Some "Invalid SDK definition (setupFile not accessible)")
      /\ (SetupFile sdk0 <> "" -> Exists h (SetupFile sdk0) = true ->
          Path sdk0 = "" ->
          err = Some "Invalid SDK definition (path not set)")
      /\ (SetupFile sdk0 <> "" -> Exists h (SetupFile sdk0) = true ->
          Path sdk0 <> "" -> Exists h (Path sdk0) = false ->
          err = Some "Invalid SDK definition (path not accessible)")).
Proof.
  intros E0 E1 E2 E3 E4 E5 err.
  destruct (checkScripts_all_exist h scriptDir (FamilyName fc) scriptsAll
              E5 ∅) as [m Hm].
  subst err. unfold NewCrossSDK. rewrite E0. simpl. rewrite E1. simpl.
  rewrite E2. simpl. rewrite !decide_False by done. rewrite Hm. simpl.
  repeat split; intros;
    destruct (decide (Status sdk0 = "")) as [Es|Es]; simpl;
    try (match goal with
         | Hi : Status sdk0 = SdkStatusInstalled |- _ =>
             exfalso; rewrite Es in Hi; discriminate Hi
         end);
    repeat first
      [ rewrite decide_True by done
      | rewrite decide_False by done
      | match goal with
        | H : Exists _ _ = _ |- _ => rewrite H; clear H; simpl
        end ];
    done.
Qed.

End ValidatorRules.

(** ** Installing, aborting, removing *)

Lemma incr_int_neq (g : Z) : incr_int g <> g.
Proof.
  unfold incr_int, strconv.maxInt, strconv.minInt.
  destruct (Z.gtb_spec (g + 1) (2 ^ 63 - 1)); lia.
Qed.

(** The command and the record that [Install] leaves when it goes ahead. *)
Lemma Install_builds env Start (file : string) (force : bool) (timeout : Z)
    (sessID : string) (g : Z) (s : CrossSDK) :
  Status (sdk s) <> SdkStatusInstalled ->
  Status (sdk s) <> SdkStatusInstalling ->
  let cmd :=
    mkExecOverWS (default "" (scripts s !! scriptAdd))
      ((if bool_decide (file = "") then ["--url"; URL (sdk s)]
        else ["--file"; file]) ++ (if force then ["--force"] else @nil string))
      sessID ("sdk-install-" +:+ strconv.Itoa (incr_int g))
      (if timeout >? 0 then timeout else 1800)
      (<["SDKID" := ID (sdk s)]> ∅)
      (sizeBuf env "XDS_SDK_BUF_STDOUT" 10)
      (sizeBuf env "XDS_SDK_BUF_STDERR" 2000) in
  Install env Start file force timeout sessID g s
  = (incr_int g,
     mkCrossSDK (ctx s)
       (with_LastError "" (with_Status SdkStatusInstalling (sdk s)))
       (scripts s) (Some cmd) (removeCmd s) "" "",
     Start cmd).
Proof.
  intros H1 H2. unfold Install. rewrite !decide_False by done.
  destruct (bool_decide (file = "")), force; reflexivity.
Qed.

(** X5: the command Install hands to the supervisor runs the add script of
    the family with --file and the file when a file is given, with --url and
    the URL of the record otherwise, followed by --force when asked and by
    nothing else; its timeout is the caller's when positive and thirty
    minutes otherwise, so never zero or negative. *)
Theorem Install_command_shape
    env Start file force timeout sessID g (s : CrossSDK) :
  Status (sdk s) <> SdkStatusInstalled ->
  Status (sdk s) <> SdkStatusInstalling ->
  exists cmd s',
    Install env Start file force timeout sessID g s
    = (incr_int g, s', Start cmd)
    /\ installCmd s' = Some cmd
    /\ Cmd cmd = default "" (scripts s !! scriptAdd)
    /\ (file <> "" ->
        Args cmd = ["--file"; file] ++ (if force then ["--force"] else @nil string))
    /\ (file = "" ->
        Args cmd = ["--url"; URL (sdk s)]
                   ++ (if force then ["--force"] else @nil string))
    /\ 0 < CmdExecTimeout cmd
    /\ (0 < timeout -> CmdExecTimeout cmd = timeout)
    /\ (timeout <= 0 -> CmdExecTimeout cmd = 30 * 60).
Proof.
  intros H1 H2.
  pose proof (Install_builds env Start file force timeout sessID g s H1 H2)
    as HB. simpl in HB.
  eexists _, _. split; [exact HB|]. simpl.
  split; [done|]. split; [done|]. split; [|split; [|split; [|split]]].
  - intros Hf. by rewrite bool_decide_false.
  - intros Hf. by rewrite bool_decide_true.
  - destruct (Z.gtb_spec timeout 0); lia.
  - intros Ht. destruct (Z.gtb_spec timeout 0); lia.
  - intros Ht. destruct (Z.gtb_spec timeout 0); lia.
Qed.

(** X6: two installations started one after the other, of any two SDKs and
    from any sessions, get different command ids; and the counter the ids
    come from has moved, by one as long as it is below the largest int. *)
Theorem consecutive_installs_distinct_ids
    env1 env2 Start1 Start2 file1 file2 force1 force2 timeout1 timeout2
    sess1 sess2 g (s1 s2 : CrossSDK) :
  Status (sdk s1) <> SdkStatusInstalled ->
  Status (sdk s1) <> SdkStatusInstalling ->
  Status (sdk s2) <> SdkStatusInstalled ->
  Status (sdk s2) <> SdkStatusInstalling ->
  exists g1 s1' c1 g2 s2' c2,
    Install env1 Start1 file1 force1 timeout1 sess1 g s1
    = (g1, s1', Start1 c1)
    /\ Install env2 Start2 file2 force2 timeout2 sess2 g1 s2
       = (g2, s2', Start2 c2)
    /\ installCmd s1' = Some c1 /\ installCmd s2' = Some c2
    /\ eCmdID c1 <> eCmdID c2
    /\ g1 <> g /\ g2 <> g1
    /\ (g < strconv.maxInt -> g1 = g + 1).
Proof.
  intros H1 H2 H3 H4.
  pose proof (Install_builds env1 Start1 file1 force1 timeout1 sess1 g s1
                H1 H2) as HB1.
  pose proof (Install_builds env2 Start2 file2 force2 timeout2 sess2
                (incr_int g) s2 H3 H4) as HB2.
  simpl in HB1, HB2.
  eexists _, _, _, _, _, _. split; [exact HB1|]. split; [exact HB2|].
  simpl. split; [done|]. split; [done|].
  split; [|split; [|split]].
  - intros Heq. apply (inj (String.append "sdk-install-")) in Heq.
    unfold strconv.Itoa in Heq. apply (inj pretty) in Heq.
    symmetry in Heq. by apply incr_int_neq in Heq.
  - apply incr_int_neq.
  - apply incr_int_neq.
  - intros Hg. unfold incr_int.
    destruct (Z.gtb_spec (g + 1) strconv.maxInt); lia.
Qed.

(** X7: once Install has gone ahead, whatever the start of the job returned,
    a second Install on the same SDK is refused with "installation in
    progress" and changes nothing. *)
Theorem second_Install_refused
    env Start file force timeout sessID g (s : CrossSDK)
    env' Start' file' force' timeout' sessID' :
  Status (sdk s) <> SdkStatusInstalled ->
  Status (sdk s) <> SdkStatusInstalling ->
  exists g1 s1 err,
    Install env Start file force timeout sessID g s = (g1, s1, err)
    /\ Install env' Start' file' force' timeout' sessID' g1 s1
       = (g1, s1, Some "installation in progress").
Proof.
  intros H1 H2.
  pose proof (Install_builds env Start file force timeout sessID g s H1 H2)
    as HB. simpl in HB.
  eexists _, _, _. split; [exact HB|].
  unfold Install. simpl. reflexivity.
Qed.

Lemma Remove_leaves_Uninstalling_helper (h : Host) (s : CrossSDK) :
  Status (sdk s) = SdkStatusInstalled ->
  exists err,
    Remove h s
    = (set_sdk (with_Status SdkStatusUninstalling (sdk s)) s, err).
Proof.
  intros H. unfold Remove. rewrite bool_decide_true by done. simpl.
  destruct (CombinedOutput h _) as [out [e|]]; by eexists.
Qed.

(** X10: Remove is refused with "this sdk is not installed", and changes
    nothing, on an SDK that is not installed; and after a Remove that went
    ahead, whether its script failed or not, a second Remove is refused in
    the same way, on any machine. *)
Theorem Remove_refused_unless_installed (h h' : Host) (s : CrossSDK) :
  (Status (sdk s) <> SdkStatusInstalled ->
   Remove h s = (s, Some "this sdk is not installed"))
  /\ (Status (sdk s) = SdkStatusInstalled ->
      Remove h' (Remove h s).1
      = ((Remove h s).1, Some "this sdk is not installed")).
Proof.
  split; intros H.
  - unfold Remove. by rewrite bool_decide_false.
  - destruct (Remove_leaves_Uninstalling_helper h s H) as [err ->]. simpl.
    unfold Remove. simpl. reflexivity.
Qed.

(** ** The events of a job *)

Lemma stdoutOf_app (a b : list SDKManagementMsg) :
  stdoutOf (a ++ b) = stdoutOf a +:+ stdoutOf b.
Proof.
  induction a as [|m a IH]; [done|].
  simpl. by rewrite IH, append_assoc.
Qed.

Lemma stderrOf_app (a b : list SDKManagementMsg) :
  stderrOf (a ++ b) = stderrOf a +:+ stderrOf b.
Proof.
  induction a as [|m a IH]; [done|].
  simpl. by rewrite IH, append_assoc.
Qed.

Lemma sameIdentity_refl (s : CrossSDK) : sameIdentity s s.
Proof. unfold sameIdentity. by destruct s as [? [] ? ? ? ? ?]. Qed.

(** The exit callback with a socket for the session, in full. *)
Lemma ExitCB_open_events
    (e : ExecOverWS) code exitError mo (w : World) sdkID :
  UserData e !! "SDKID" = Some sdkID ->
  16 <= len sdkID ->
  IOSocketGet mo (Sid e) = true ->
  exists w' terminal,
    ExitCB e code exitError mo w = Some w'
    /\ emitted w' = emitted w ++ exitFlush e mo (self w) ++ [terminal]
    /\ stdoutOf (exitFlush e mo (self w)) = bufStdout (self w)
    /\ stderrOf (exitFlush e mo (self w)) = bufStderr (self w)
    /\ Forall (fun m => Exited m = false) (exitFlush e mo (self w))
    /\ bufStdout (self w') = "" /\ bufStderr (self w') = ""
    /\ installCmd (self w') = None
    /\ sameIdentity (self w) (self w')
    /\ terminal
       = mkSDKManagementMsg (eCmdID e) (now mo) (sdk (self w')) 100 true
           "" "" code
           (match exitError with
            | Some m => if decide (m = "") then LastError (sdk (self w'))
                        else m
            | None => LastError (sdk (self w'))
            end)
    /\ Status (sdk (self w'))
       = (if decide (code = 0 /\ exitError = None) then SdkStatusInstalled
          else SdkStatusNotInstalled)
    /\ LastError (sdk (self w'))
       = (if decide (code = 0 /\ exitError = None) then ""
          else match exitError with
               | Some m => ". Error: " +:+ m
               | None => "Installation failed (code "
                         +:+ strconv.Itoa code +:+ ")"
               end).
Proof.
  intros HU HL HS. unfold ExitCB, exitFlush. rewrite HU. simpl.
  destruct (Z.ltb_spec (len sdkID) 16) as [?|_]; [lia|].
  rewrite HS. simpl.
  destruct w as [[c k sc ic rc bo be] em]. simpl.
  assert (HK : forall x y, with_Status (Status k) (with_LastError (LastError k)
                             (with_Status x (with_LastError y k))) = k)
    by (by destruct k).
  destruct (decide (code = 0 /\ exitError = None)) as [[-> ->]|Hn].
  - destruct be as [|b1 be], bo as [|b2 bo]; simpl;
      (eexists _, _; split; [reflexivity|]); simpl;
      rewrite <- ?app_assoc; simpl; rewrite ?append_empty_r;
      unfold sameIdentity; simpl; rewrite ?HK;
      repeat split; try done; repeat constructor.
  - assert ((code =? 0) && bool_decide (exitError = None) = false) as ->.
    { apply andb_false_iff.
      destruct (Z.eqb_spec code 0) as [->|]; [right|by left].
      apply bool_decide_eq_false. tauto. }
    destruct exitError as [m|];
      destruct be as [|b1 be], bo as [|b2 bo]; simpl;
      (eexists _, _; split; [reflexivity|]); simpl;
      rewrite <- ?app_assoc; simpl; rewrite ?append_empty_r;
      unfold sameIdentity; simpl; rewrite ?HK;
      repeat split; try done; repeat constructor;
      try (destruct (decide (m = "")) as [->|]; simpl;
           rewrite ?bool_decide_true by done;
           rewrite ?bool_decide_false by done; done).
Qed.
